(** * Airflow provider glue: ClickHouse hook, Github hook and operator,
      and the removed HDFS sensors.

    A shallow embedding of

    - [airflow/providers/clickhouse/hooks/clickhouse.py]
    - [airflow/providers/github/hooks/github.py]
    - [airflow/providers/github/operators/github.py]
    - [airflow/providers/apache/hdfs/sensors/hdfs.py]

    Python methods become computations in a state-and-exception monad over
    a [World] that holds the client objects constructed so far, the log,
    the pending items of generator objects and the state of the remote
    services.  Third-party code (the ClickHouse driver, PyGithub) and the
    framework's credential store are interfaces whose behaviour is left
    open. *)

From Stdlib Require Import ZArith String Ascii List Bool Lia.
From Stdlib Require Import DecimalString HexadecimalString.
From stdpp Require Import gmap strings list.

Open Scope Z_scope.

(** ** Python values, exceptions and the effect monad *)

Module Py.

(** The exception classes the modelled code raises, catches or can receive
    from the code it calls.  [GithubException] stands for that class and
    its subclasses, [OtherException] for any further subclass of
    [Exception], and [SystemSignal] for the classes that derive from
    [BaseException] only ([KeyboardInterrupt], [SystemExit],
    [GeneratorExit]): [except Exception] does not catch those. *)
Inductive ExcClass : Type :=
| AirflowException
| AirflowNotFoundException
| GithubException
| RuntimeError
| ValueError
| TypeError
| AttributeError
| IndexError
| StopIteration
| OtherException (name : string)
| SystemSignal (name : string).

(** An exception instance: its class and what [str] gives on it. *)
Record PyExc : Type := mkExc { exc_class : ExcClass; exc_str : string }.

Definition isinstance_Exception (e : PyExc) : bool :=
  match exc_class e with
  | SystemSignal _ => false
  | _ => true
  end.

Definition isinstance_GithubException (e : PyExc) : bool :=
  match exc_class e with
  | GithubException => true
  | _ => false
  end.

(** What evaluating an expression gives: a value, or a raised exception. *)
Inductive Outcome (A : Type) : Type :=
| Return (a : A)
| Raise (e : PyExc).
Arguments Return {A} a.
Arguments Raise {A} e.

(** State and exceptions: the state reached when an exception is raised is
    kept (Python rolls nothing back). *)
Definition PyM (S A : Type) : Type := S -> Outcome A * S.

Definition ret {S A : Type} (a : A) : PyM S A := fun s => (Return a, s).

Definition raise {S A : Type} (e : PyExc) : PyM S A := fun s => (Raise e, s).

Definition bind {S A B : Type} (m : PyM S A) (k : A -> PyM S B) : PyM S B :=
  fun s =>
    match m s with
    | (Return a, s') => k a s'
    | (Raise e, s') => (Raise e, s')
    end.

(** [try: m  except ...: handler]; the handler re-raises what no clause of
    the statement catches. *)
Definition try_except {S A : Type} (m : PyM S A) (handler : PyExc -> PyM S A)
  : PyM S A :=
  fun s =>
    match m s with
    | (Return a, s') => (Return a, s')
    | (Raise e, s') => handler e s'
    end.

(** A pure expression that may raise, evaluated in a state. *)
Definition lift {S A : Type} (o : Outcome A) : PyM S A := fun s => (o, s).

Definition gets {S A : Type} (f : S -> A) : PyM S A := fun s => (Return (f s), s).

Definition modify {S : Type} (f : S -> S) : PyM S unit := fun s => (Return tt, f s).

Declare Scope py_scope.
Delimit Scope py_scope with py.
Notation "x <- m ;; k" := (bind m (fun x => k))
  (at level 20, m at level 99, k at level 200, only parsing) : py_scope.
Notation "m ;; k" := (bind m (fun _ => k))
  (at level 100, k at level 200, right associativity, only parsing) : py_scope.

(** The values that connection fields, JSON extras and query parameters
    hold in this model: [None], booleans, integers and strings. *)
Inductive PyVal : Type :=
| VNone
| VBool (b : bool)
| VInt (z : Z)
| VStr (s : string).

#[global] Instance PyVal_eq_dec : EqDecision PyVal.
Proof. solve_decision. Defined.

(** Truth value testing, [bool(v)]. *)
Definition truthy (v : PyVal) : bool :=
  match v with
  | VNone => false
  | VBool b => b
  | VInt z => negb (z =? 0)
  | VStr s => negb (String.eqb s "")
  end.

(** Truth value of an attribute that is [None] or a [str]. *)
Definition truthy_str (o : option string) : bool :=
  match o with
  | None => false
  | Some s => negb (String.eqb s "")
  end.

(** [str(z)] for an [int]. *)
Definition str_int (z : Z) : string :=
  DecimalString.NilZero.string_of_int (Z.to_int z).

(** *** The characters of a [str] *)

(** A [string] stands for the Python [str] whose UTF-8 encoding it is; a
    character is a code point together with the bytes that encode it.  A
    byte that starts no well-formed sequence is taken as a character of
    its own. *)
Fixpoint characters_from (fuel : nat) (s : list ascii) : list (N * list ascii) :=
  match fuel, s with
  | S fuel', b0 :: rest =>
      let n0 := N_of_ascii b0 in
      let join6 := fun (acc : N) (b : ascii) => (acc * 64 + N_of_ascii b mod 64)%N in
      if (n0 <? 192)%N then (n0, [b0]) :: characters_from fuel' rest
      else if (n0 <? 224)%N
      then (fold_left join6 (take 1 rest) (n0 - 192)%N, b0 :: take 1 rest)
           :: characters_from fuel' (drop 1 rest)
      else if (n0 <? 240)%N
      then (fold_left join6 (take 2 rest) (n0 - 224)%N, b0 :: take 2 rest)
           :: characters_from fuel' (drop 2 rest)
      else (fold_left join6 (take 3 rest) (n0 mod 8)%N, b0 :: take 3 rest)
           :: characters_from fuel' (drop 3 rest)
  | _, _ => []
  end.

Definition characters (s : string) : list (N * list ascii) :=
  characters_from (String.length s) (list_ascii_of_string s).

(** The first of each run of ten decimal digits, [str.isspace] above
    ASCII, and the ranges above ASCII of the characters that are not
    [str.isprintable]: Unicode 14.0.0, as in CPython 3.11. *)
Definition decimal_zeros : list N :=
  [
   48; 1632; 1776; 1984; 2406; 2534; 2662; 2790; 2918; 3046;
   3174; 3302; 3430; 3558; 3664; 3792; 3872; 4160; 4240; 6112;
   6160; 6470; 6608; 6784; 6800; 6992; 7088; 7232; 7248; 42528;
   43216; 43264; 43472; 43504; 43600; 44016; 65296; 66720; 68912; 69734;
   69872; 69942; 70096; 70384; 70736; 70864; 71248; 71360; 71472; 71904;
   72016; 72784; 73040; 73120; 92768; 92864; 93008; 120782; 120792; 120802;
   120812; 120822; 123200; 123632; 125264; 130032
  ]%N.

Definition unicode_spaces : list N :=
  [
   133; 160; 5760; 8192; 8193; 8194; 8195; 8196; 8197; 8198;
   8199; 8200; 8201; 8202; 8232; 8233; 8239; 8287; 12288
  ]%N.

Definition not_printable_ranges : list (N * N) :=
  [
   (128, 160); (173, 173); (888, 889); (896, 899); (907, 907);
   (909, 909); (930, 930); (1328, 1328); (1367, 1368); (1419, 1420);
   (1424, 1424); (1480, 1487); (1515, 1518); (1525, 1541); (1564, 1564);
   (1757, 1757); (1806, 1807); (1867, 1868); (1970, 1983); (2043, 2044);
   (2094, 2095); (2111, 2111); (2140, 2141); (2143, 2143); (2155, 2159);
   (2191, 2199); (2274, 2274); (2436, 2436); (2445, 2446); (2449, 2450);
   (2473, 2473); (2481, 2481); (2483, 2485); (2490, 2491); (2501, 2502);
   (2505, 2506); (2511, 2518); (2520, 2523); (2526, 2526); (2532, 2533);
   (2559, 2560); (2564, 2564); (2571, 2574); (2577, 2578); (2601, 2601);
   (2609, 2609); (2612, 2612); (2615, 2615); (2618, 2619); (2621, 2621);
   (2627, 2630); (2633, 2634); (2638, 2640); (2642, 2648); (2653, 2653);
   (2655, 2661); (2679, 2688); (2692, 2692); (2702, 2702); (2706, 2706);
   (2729, 2729); (2737, 2737); (2740, 2740); (2746, 2747); (2758, 2758);
   (2762, 2762); (2766, 2767); (2769, 2783); (2788, 2789); (2802, 2808);
   (2816, 2816); (2820, 2820); (2829, 2830); (2833, 2834); (2857, 2857);
   (2865, 2865); (2868, 2868); (2874, 2875); (2885, 2886); (2889, 2890);
   (2894, 2900); (2904, 2907); (2910, 2910); (2916, 2917); (2936, 2945);
   (2948, 2948); (2955, 2957); (2961, 2961); (2966, 2968); (2971, 2971);
   (2973, 2973); (2976, 2978); (2981, 2983); (2987, 2989); (3002, 3005);
   (3011, 3013); (3017, 3017); (3022, 3023); (3025, 3030); (3032, 3045);
   (3067, 3071); (3085, 3085); (3089, 3089); (3113, 3113); (3130, 3131);
   (3141, 3141); (3145, 3145); (3150, 3156); (3159, 3159); (3163, 3164);
   (3166, 3167); (3172, 3173); (3184, 3190); (3213, 3213); (3217, 3217);
   (3241, 3241); (3252, 3252); (3258, 3259); (3269, 3269); (3273, 3273);
   (3278, 3284); (3287, 3292); (3295, 3295); (3300, 3301); (3312, 3312);
   (3315, 3327); (3341, 3341); (3345, 3345); (3397, 3397); (3401, 3401);
   (3408, 3411); (3428, 3429); (3456, 3456); (3460, 3460); (3479, 3481);
   (3506, 3506); (3516, 3516); (3518, 3519); (3527, 3529); (3531, 3534);
   (3541, 3541); (3543, 3543); (3552, 3557); (3568, 3569); (3573, 3584);
   (3643, 3646); (3676, 3712); (3715, 3715); (3717, 3717); (3723, 3723);
   (3748, 3748); (3750, 3750); (3774, 3775); (3781, 3781); (3783, 3783);
   (3790, 3791); (3802, 3803); (3808, 3839); (3912, 3912); (3949, 3952);
   (3992, 3992); (4029, 4029); (4045, 4045); (4059, 4095); (4294, 4294);
   (4296, 4300); (4302, 4303); (4681, 4681); (4686, 4687); (4695, 4695);
   (4697, 4697); (4702, 4703); (4745, 4745); (4750, 4751); (4785, 4785);
   (4790, 4791); (4799, 4799); (4801, 4801); (4806, 4807); (4823, 4823);
   (4881, 4881); (4886, 4887); (4955, 4956); (4989, 4991); (5018, 5023);
   (5110, 5111); (5118, 5119); (5760, 5760); (5789, 5791); (5881, 5887);
   (5910, 5918); (5943, 5951); (5972, 5983); (5997, 5997); (6001, 6001);
   (6004, 6015); (6110, 6111); (6122, 6127); (6138, 6143); (6158, 6158);
   (6170, 6175); (6265, 6271); (6315, 6319); (6390, 6399); (6431, 6431);
   (6444, 6447); (6460, 6463); (6465, 6467); (6510, 6511); (6517, 6527);
   (6572, 6575); (6602, 6607); (6619, 6621); (6684, 6685); (6751, 6751);
   (6781, 6782); (6794, 6799); (6810, 6815); (6830, 6831); (6863, 6911);
   (6989, 6991); (7039, 7039); (7156, 7163); (7224, 7226); (7242, 7244);
   (7305, 7311); (7355, 7356); (7368, 7375); (7419, 7423); (7958, 7959);
   (7966, 7967); (8006, 8007); (8014, 8015); (8024, 8024); (8026, 8026);
   (8028, 8028); (8030, 8030); (8062, 8063); (8117, 8117); (8133, 8133);
   (8148, 8149); (8156, 8156); (8176, 8177); (8181, 8181); (8191, 8207);
   (8232, 8239); (8287, 8303); (8306, 8307); (8335, 8335); (8349, 8351);
   (8385, 8399); (8433, 8447); (8588, 8591); (9255, 9279); (9291, 9311);
   (11124, 11125); (11158, 11158); (11508, 11512); (11558, 11558); (11560, 11564);
   (11566, 11567); (11624, 11630); (11633, 11646); (11671, 11679); (11687, 11687);
   (11695, 11695); (11703, 11703); (11711, 11711); (11719, 11719); (11727, 11727);
   (11735, 11735); (11743, 11743); (11870, 11903); (11930, 11930); (12020, 12031);
   (12246, 12271); (12284, 12288); (12352, 12352); (12439, 12440); (12544, 12548);
   (12592, 12592); (12687, 12687); (12772, 12783); (12831, 12831); (42125, 42127);
   (42183, 42191); (42540, 42559); (42744, 42751); (42955, 42959); (42962, 42962);
   (42964, 42964); (42970, 42993); (43053, 43055); (43066, 43071); (43128, 43135);
   (43206, 43213); (43226, 43231); (43348, 43358); (43389, 43391); (43470, 43470);
   (43482, 43485); (43519, 43519); (43575, 43583); (43598, 43599); (43610, 43611);
   (43715, 43738); (43767, 43776); (43783, 43784); (43791, 43792); (43799, 43807);
   (43815, 43815); (43823, 43823); (43884, 43887); (44014, 44015); (44026, 44031);
   (55204, 55215); (55239, 55242); (55292, 63743); (64110, 64111); (64218, 64255);
   (64263, 64274); (64280, 64284); (64311, 64311); (64317, 64317); (64319, 64319);
   (64322, 64322); (64325, 64325); (64451, 64466); (64912, 64913); (64968, 64974);
   (64976, 65007); (65050, 65055); (65107, 65107); (65127, 65127); (65132, 65135);
   (65141, 65141); (65277, 65280); (65471, 65473); (65480, 65481); (65488, 65489);
   (65496, 65497); (65501, 65503); (65511, 65511); (65519, 65531); (65534, 65535);
   (65548, 65548); (65575, 65575); (65595, 65595); (65598, 65598); (65614, 65615);
   (65630, 65663); (65787, 65791); (65795, 65798); (65844, 65846); (65935, 65935);
   (65949, 65951); (65953, 65999); (66046, 66175); (66205, 66207); (66257, 66271);
   (66300, 66303); (66340, 66348); (66379, 66383); (66427, 66431); (66462, 66462);
   (66500, 66503); (66518, 66559); (66718, 66719); (66730, 66735); (66772, 66775);
   (66812, 66815); (66856, 66863); (66916, 66926); (66939, 66939); (66955, 66955);
   (66963, 66963); (66966, 66966); (66978, 66978); (66994, 66994); (67002, 67002);
   (67005, 67071); (67383, 67391); (67414, 67423); (67432, 67455); (67462, 67462);
   (67505, 67505); (67515, 67583); (67590, 67591); (67593, 67593); (67638, 67638);
   (67641, 67643); (67645, 67646); (67670, 67670); (67743, 67750); (67760, 67807);
   (67827, 67827); (67830, 67834); (67868, 67870); (67898, 67902); (67904, 67967);
   (68024, 68027); (68048, 68049); (68100, 68100); (68103, 68107); (68116, 68116);
   (68120, 68120); (68150, 68151); (68155, 68158); (68169, 68175); (68185, 68191);
   (68256, 68287); (68327, 68330); (68343, 68351); (68406, 68408); (68438, 68439);
   (68467, 68471); (68498, 68504); (68509, 68520); (68528, 68607); (68681, 68735);
   (68787, 68799); (68851, 68857); (68904, 68911); (68922, 69215); (69247, 69247);
   (69290, 69290); (69294, 69295); (69298, 69375); (69416, 69423); (69466, 69487);
   (69514, 69551); (69580, 69599); (69623, 69631); (69710, 69713); (69750, 69758);
   (69821, 69821); (69827, 69839); (69865, 69871); (69882, 69887); (69941, 69941);
   (69960, 69967); (70007, 70015); (70112, 70112); (70133, 70143); (70162, 70162);
   (70207, 70271); (70279, 70279); (70281, 70281); (70286, 70286); (70302, 70302);
   (70314, 70319); (70379, 70383); (70394, 70399); (70404, 70404); (70413, 70414);
   (70417, 70418); (70441, 70441); (70449, 70449); (70452, 70452); (70458, 70458);
   (70469, 70470); (70473, 70474); (70478, 70479); (70481, 70486); (70488, 70492);
   (70500, 70501); (70509, 70511); (70517, 70655); (70748, 70748); (70754, 70783);
   (70856, 70863); (70874, 71039); (71094, 71095); (71134, 71167); (71237, 71247);
   (71258, 71263); (71277, 71295); (71354, 71359); (71370, 71423); (71451, 71452);
   (71468, 71471); (71495, 71679); (71740, 71839); (71923, 71934); (71943, 71944);
   (71946, 71947); (71956, 71956); (71959, 71959); (71990, 71990); (71993, 71994);
   (72007, 72015); (72026, 72095); (72104, 72105); (72152, 72153); (72165, 72191);
   (72264, 72271); (72355, 72367); (72441, 72703); (72713, 72713); (72759, 72759);
   (72774, 72783); (72813, 72815); (72848, 72849); (72872, 72872); (72887, 72959);
   (72967, 72967); (72970, 72970); (73015, 73017); (73019, 73019); (73022, 73022);
   (73032, 73039); (73050, 73055); (73062, 73062); (73065, 73065); (73103, 73103);
   (73106, 73106); (73113, 73119); (73130, 73439); (73465, 73647); (73649, 73663);
   (73714, 73726); (74650, 74751); (74863, 74863); (74869, 74879); (75076, 77711);
   (77811, 77823); (78895, 82943); (83527, 92159); (92729, 92735); (92767, 92767);
   (92778, 92781); (92863, 92863); (92874, 92879); (92910, 92911); (92918, 92927);
   (92998, 93007); (93018, 93018); (93026, 93026); (93048, 93052); (93072, 93759);
   (93851, 93951); (94027, 94030); (94088, 94094); (94112, 94175); (94181, 94191);
   (94194, 94207); (100344, 100351); (101590, 101631); (101641, 110575); (110580, 110580);
   (110588, 110588); (110591, 110591); (110883, 110927); (110931, 110947); (110952, 110959);
   (111356, 113663); (113771, 113775); (113789, 113791); (113801, 113807); (113818, 113819);
   (113824, 118527); (118574, 118575); (118599, 118607); (118724, 118783); (119030, 119039);
   (119079, 119080); (119155, 119162); (119275, 119295); (119366, 119519); (119540, 119551);
   (119639, 119647); (119673, 119807); (119893, 119893); (119965, 119965); (119968, 119969);
   (119971, 119972); (119975, 119976); (119981, 119981); (119994, 119994); (119996, 119996);
   (120004, 120004); (120070, 120070); (120075, 120076); (120085, 120085); (120093, 120093);
   (120122, 120122); (120127, 120127); (120133, 120133); (120135, 120137); (120145, 120145);
   (120486, 120487); (120780, 120781); (121484, 121498); (121504, 121504); (121520, 122623);
   (122655, 122879); (122887, 122887); (122905, 122906); (122914, 122914); (122917, 122917);
   (122923, 123135); (123181, 123183); (123198, 123199); (123210, 123213); (123216, 123535);
   (123567, 123583); (123642, 123646); (123648, 124895); (124903, 124903); (124908, 124908);
   (124911, 124911); (124927, 124927); (125125, 125126); (125143, 125183); (125260, 125263);
   (125274, 125277); (125280, 126064); (126133, 126208); (126270, 126463); (126468, 126468);
   (126496, 126496); (126499, 126499); (126501, 126502); (126504, 126504); (126515, 126515);
   (126520, 126520); (126522, 126522); (126524, 126529); (126531, 126534); (126536, 126536);
   (126538, 126538); (126540, 126540); (126544, 126544); (126547, 126547); (126549, 126550);
   (126552, 126552); (126554, 126554); (126556, 126556); (126558, 126558); (126560, 126560);
   (126563, 126563); (126565, 126566); (126571, 126571); (126579, 126579); (126584, 126584);
   (126589, 126589); (126591, 126591); (126602, 126602); (126620, 126624); (126628, 126628);
   (126634, 126634); (126652, 126703); (126706, 126975); (127020, 127023); (127124, 127135);
   (127151, 127152); (127168, 127168); (127184, 127184); (127222, 127231); (127406, 127461);
   (127491, 127503); (127548, 127551); (127561, 127567); (127570, 127583); (127590, 127743);
   (128728, 128732); (128749, 128751); (128765, 128767); (128884, 128895); (128985, 128991);
   (129004, 129007); (129009, 129023); (129036, 129039); (129096, 129103); (129114, 129119);
   (129160, 129167); (129198, 129199); (129202, 129279); (129620, 129631); (129646, 129647);
   (129653, 129655); (129661, 129663); (129671, 129679); (129709, 129711); (129723, 129727);
   (129734, 129743); (129754, 129759); (129768, 129775); (129783, 129791); (129939, 129939);
   (129995, 130031); (130042, 131071); (173792, 173823); (177977, 177983); (178206, 178207);
   (183970, 183983); (191457, 194559); (195102, 196607); (201547, 917759); (918000, 1114111)
  ]%N.

(** The value of a decimal digit of any script. *)
Definition decimal_of (cp : N) : option N :=
  (fun z => (cp - z)%N) <$>
  List.find (fun z => (z <=? cp)%N && (cp <? z + 10)%N) decimal_zeros.

Definition isspace_above_ascii (cp : N) : bool :=
  existsb (N.eqb cp) unicode_spaces.

Definition isprintable_above_ascii (cp : N) : bool :=
  negb (existsb (fun r : N * N => (r.1 <=? cp)%N && (cp <=? r.2)%N)
          not_printable_ranges).

(** *** [repr(v)] *)

Definition hex_digit (n : N) : ascii :=
  ascii_of_N (if (n <? 10)%N then 48 + n else 87 + n).

(** [n] as [width] hexadecimal digits. *)
Fixpoint hex (width : nat) (n : N) : string :=
  match width with
  | O => ""
  | S width' => hex width' (n / 16) +:+ String (hex_digit (n mod 16)) ""
  end.

Definition double_quote : ascii := ascii_of_nat 34.
Definition backslash : ascii := ascii_of_nat 92.

(** One character inside the quotes of a [repr]. *)
Definition repr_char (quote : ascii) (ch : N * list ascii) : string :=
  let cp := ch.1 in
  if (cp =? N_of_ascii backslash)%N then String backslash (String backslash "")
  else if (cp =? N_of_ascii quote)%N then String backslash (String quote "")
  else if (cp =? 9)%N then String backslash "t"
  else if (cp =? 10)%N then String backslash "n"
  else if (cp =? 13)%N then String backslash "r"
  else if ((cp <? 32) || (cp =? 127))%N then String backslash ("x" +:+ hex 2 cp)
  else if (cp <? 127)%N then string_of_list_ascii ch.2
  else if isprintable_above_ascii cp then string_of_list_ascii ch.2
  else if (cp <? 256)%N then String backslash ("x" +:+ hex 2 cp)
  else if (cp <? 65536)%N then String backslash ("u" +:+ hex 4 cp)
  else String backslash ("U" +:+ hex 8 cp).

Fixpoint repr_chars (quote : ascii) (chs : list (N * list ascii)) : string :=
  match chs with
  | [] => ""
  | ch :: chs' => repr_char quote ch +:+ repr_chars quote chs'
  end.

Fixpoint has_char (c : ascii) (s : string) : bool :=
  match s with
  | EmptyString => false
  | String c' s' => Ascii.eqb c c' || has_char c s'
  end.

(** [repr] of a [str]: single quotes, unless the string holds a single
    quote and no double quote; characters that are not printable are
    escaped. *)
Definition repr_str (s : string) : string :=
  let quote :=
    if has_char "'" s && negb (has_char double_quote s)
    then double_quote else "'"%char in
  String quote (repr_chars quote (characters s) +:+ String quote "").

Definition repr (v : PyVal) : string :=
  match v with
  | VNone => "None"
  | VBool true => "True"
  | VBool false => "False"
  | VInt z => str_int z
  | VStr s => repr_str s
  end.

(** *** [int(v)] *)

Definition is_space (c : ascii) : bool :=
  let n := nat_of_ascii c in
  ((9 <=? n) && (n <=? 13))%nat || (n =? 32)%nat.

Definition digit_val (c : ascii) : option Z :=
  let n := nat_of_ascii c in
  if ((48 <=? n) && (n <=? 57))%nat then Some (Z.of_nat n - 48) else None.

Fixpoint lstrip (s : list ascii) : list ascii :=
  match s with
  | c :: s' => if is_space c then lstrip s' else s
  | [] => []
  end.

Definition strip (s : list ascii) : list ascii :=
  rev (lstrip (rev (lstrip s))).

(** [s.isascii()]. *)
Definition isascii (s : string) : bool :=
  forallb (fun c => (N_of_ascii c <? 128)%N) (list_ascii_of_string s).

(** What [int] first makes of a [str] that is not all ASCII: white space
    above ASCII becomes a blank, a decimal digit of any script its ASCII
    digit, and any other character above ASCII one that no integer
    literal holds. *)
Definition int_transform (s : string) : list ascii :=
  if isascii s
  then list_ascii_of_string s
  else
    flat_map
      (fun ch : N * list ascii =>
         if (ch.1 <? 127)%N then ch.2
         else if isspace_above_ascii ch.1 then [" "%char]
         else match decimal_of ch.1 with
              | Some d => [ascii_of_N (48 + d)]
              | None => ["?"%char]
              end)
      (characters s).

(** The longest run of decimal digits, single underscores allowed between
    two digits: its value, the number of its digits and what follows it;
    [None] when an underscore is misplaced. *)
Fixpoint scan_digits (after_digit : bool) (acc : Z) (digits : nat)
    (s : list ascii) : option (Z * nat * list ascii) :=
  match s with
  | [] => Some (acc, digits, [])
  | c :: s' =>
      match digit_val c with
      | Some d => scan_digits true (10 * acc + d) (S digits) s'
      | None =>
          if Ascii.eqb c "_"
          then if after_digit
               then match s' with
                    | c' :: _ =>
                        match digit_val c' with
                        | Some _ => scan_digits false acc digits s'
                        | None => None
                        end
                    | [] => None
                    end
               else None
          else Some (acc, digits, s)
      end
  end.

(** The limit of [sys.get_int_max_str_digits()], at its default. *)
Definition int_max_str_digits : nat := 4300.

Inductive IntLiteral : Type :=
| Literal (z : Z)
| NoLiteral
| TooManyDigits (digits : nat).

(** [int(s)] for a [str] in base 10: surrounding white space, one optional
    sign, decimal digits. *)
Definition parse_int (s : string) : IntLiteral :=
  let core := strip (int_transform s) in
  let '(negative, body) :=
    match core with
    | "-"%char :: body => (true, body)
    | "+"%char :: body => (false, body)
    | body => (false, body)
    end in
  match scan_digits false 0 0 body with
  | None => NoLiteral
  | Some (z, digits, rest) =>
      if (digits =? 0)%nat then NoLiteral
      else if (int_max_str_digits <? digits)%nat then TooManyDigits digits
      else match rest with
           | [] => Literal (if negative : bool then - z else z)
           | _ => NoLiteral
           end
  end.

Definition int_of_str (s : string) : option Z :=
  match parse_int s with
  | Literal z => Some z
  | _ => None
  end.

(** The first [n] characters of a [str]. *)
Definition str_take (n : nat) (s : string) : string :=
  string_of_list_ascii (flat_map snd (take n (characters s))).

Definition py_int (v : PyVal) : Outcome Z :=
  match v with
  | VNone =>
      Raise (mkExc TypeError
        "int() argument must be a string, a bytes-like object or a real number, not 'NoneType'")
  | VBool b => Return (Z.b2z b)
  | VInt z => Return z
  | VStr s =>
      match parse_int s with
      | Literal z => Return z
      | NoLiteral =>
          Raise (mkExc ValueError
            ("invalid literal for int() with base 10: " +:+ str_take 200 (repr_str s)))
      | TooManyDigits digits =>
          Raise (mkExc ValueError
            ("Exceeds the limit (4300 digits) for integer string conversion: value has "
             +:+ str_int (Z.of_nat digits)
             +:+ " digits; use sys.set_int_max_str_digits() to increase the limit"))
      end
  end.

(** Python's [==] on these values: [True == 1] and [False == 0]. *)
Definition py_eqb (a b : PyVal) : bool :=
  match a, b with
  | VNone, VNone => true
  | VStr s, VStr t => String.eqb s t
  | VBool x, VBool y => Bool.eqb x y
  | VInt x, VInt y => x =? y
  | VBool x, VInt y | VInt y, VBool x => Z.b2z x =? y
  | _, _ => false
  end.

(** *** Strings *)

(** [s[-1]]: the last character; [IndexError] on the empty string. *)
Fixpoint str_last (s : string) : option ascii :=
  match s with
  | EmptyString => None
  | String c EmptyString => Some c
  | String _ s' => str_last s'
  end.

(** [s[:-1]]: all but the last character. *)
Fixpoint str_drop_last (s : string) : string :=
  match s with
  | EmptyString => ""
  | String c EmptyString => ""
  | String c s' => String c (str_drop_last s')
  end.

(** [sep.join(l)]. *)
Fixpoint join (sep : string) (l : list string) : string :=
  match l with
  | [] => ""
  | [x] => x
  | x :: l' => x +:+ sep +:+ join sep l'
  end.

(** [needle in s]. *)
Fixpoint contains (needle s : string) : bool :=
  String.prefix needle s ||
  match s with
  | EmptyString => false
  | String _ s' => contains needle s'
  end.

(** *** Query parameters: [dict], [list], [tuple] or a generator *)

(** A generator object: the qualified name of its code and its address.
    Its pending items live in the world; [str] does not look at them. *)
Record Generator : Type := mkGenerator { gen_qualname : string; gen_addr : N }.

(** A [dict] is its items in insertion order. *)
Inductive Parameters : Type :=
| PDict (items : list (PyVal * PyVal))
| PList (l : list PyVal)
| PTuple (l : list PyVal)
| PGenerator (g : Generator).

Definition isinstance_Generator (p : Parameters) : bool :=
  match p with PGenerator _ => true | _ => false end.

Definition isinstance_dict (p : Parameters) : bool :=
  match p with PDict _ => true | _ => false end.

(** [bool(p)]: a container is true when it is not empty, a generator
    object always. *)
Definition truthy_parameters (p : Parameters) : bool :=
  match p with
  | PDict [] | PList [] | PTuple [] => false
  | _ => true
  end.

(** [len(p)]. *)
Definition len (p : Parameters) : Outcome Z :=
  match p with
  | PDict items => Return (Z.of_nat (length items))
  | PList l | PTuple l => Return (Z.of_nat (length l))
  | PGenerator _ =>
      Raise (mkExc TypeError "object of type 'generator' has no len()")
  end.

Definition repr_item (kv : PyVal * PyVal) : string :=
  repr kv.1 +:+ ": " +:+ repr kv.2.

Definition str_generator (g : Generator) : string :=
  "<generator object " +:+ gen_qualname g +:+ " at 0x"
  +:+ HexadecimalString.NilZero.string_of_uint (N.to_hex_uint (gen_addr g))
  +:+ ">".

(** [str(p)]. *)
Definition str (p : Parameters) : string :=
  match p with
  | PDict items => "{" +:+ join ", " (map repr_item items) +:+ "}"
  | PList l => "[" +:+ join ", " (map repr l) +:+ "]"
  | PTuple [x] => "(" +:+ repr x +:+ ",)"
  | PTuple l => "(" +:+ join ", " (map repr l) +:+ ")"
  | PGenerator g => str_generator g
  end.

(** [d[k] = v] on the items of a dict: an equal key keeps its place and
    takes the new value, a new key goes last. *)
Fixpoint dict_setitem (k v : PyVal) (d : list (PyVal * PyVal))
  : list (PyVal * PyVal) :=
  match d with
  | [] => [(k, v)]
  | (k', v') :: d' =>
      if py_eqb k' k then (k', v) :: d' else (k', v') :: dict_setitem k v d'
  end.

(** [dict(pairs)]. *)
Definition dict (pairs : list (PyVal * PyVal)) : list (PyVal * PyVal) :=
  fold_left (fun d kv => dict_setitem kv.1 kv.2 d) pairs [].

(** The keys of a dict are pairwise different under [==]. *)
Fixpoint distinct_keys (d : list (PyVal * PyVal)) : bool :=
  match d with
  | [] => true
  | (k, _) :: d' => forallb (fun kv => negb (py_eqb k kv.1)) d' && distinct_keys d'
  end.

(** [parameters.items()]. *)
Definition dict_items (p : Parameters) : Outcome (list (PyVal * PyVal)) :=
  match p with
  | PDict items => Return items
  | PList _ => Raise (mkExc AttributeError "'list' object has no attribute 'items'")
  | PTuple _ => Raise (mkExc AttributeError "'tuple' object has no attribute 'items'")
  | PGenerator _ =>
      Raise (mkExc AttributeError "'generator' object has no attribute 'items'")
  end.

(** [islice(it, stop)]. *)
Definition islice {A : Type} (it : list A) (stop : Z) : Outcome (list A) :=
  if stop <? 0
  then Raise (mkExc ValueError
         "Stop argument for islice() must be None or an integer: 0 <= x <= sys.maxsize.")
  else Return (take (Z.to_nat stop) it).

(** [l[:stop]] on a list: a negative [stop] counts from the end. *)
Definition slice_to {A : Type} (l : list A) (stop : Z) : list A :=
  if stop <? 0 then take (Z.to_nat (Z.of_nat (length l) + stop)) l
  else take (Z.to_nat stop) l.

(** [parameters[:stop]]. *)
Definition getslice (p : Parameters) (stop : Z) : Outcome Parameters :=
  match p with
  | PList l => Return (PList (slice_to l stop))
  | PTuple l => Return (PTuple (slice_to l stop))
  | PDict _ => Raise (mkExc TypeError "unhashable type: 'slice'")
  | PGenerator _ =>
      Raise (mkExc TypeError "'generator' object is not subscriptable")
  end.

(** [s[-1]] as an expression. *)
Definition str_index_last (s : string) : Outcome ascii :=
  match str_last s with
  | Some c => Return c
  | None => Raise (mkExc IndexError "string index out of range")
  end.

(** *** Parts of a container *)

(** The closing bracket of a container's [str]. *)
Definition closing_paren (p : Parameters) : ascii :=
  match p with
  | PDict _ => "}"
  | PList _ => "]"
  | _ => ")"
  end%char.

(** A container's [str] without its closing bracket. *)
Definition str_open (p : Parameters) : string :=
  match p with
  | PDict items => "{" +:+ join ", " (map repr_item items)
  | PList l => "[" +:+ join ", " (map repr l)
  | PTuple [x] => "(" +:+ repr x +:+ ","
  | PTuple l => "(" +:+ join ", " (map repr l)
  | PGenerator g => str_drop_last (str_generator g)
  end.

(** The number of entries of a container. *)
Definition entries (p : Parameters) : nat :=
  match p with
  | PDict items => length items
  | PList l | PTuple l => length l
  | PGenerator _ => 0
  end.

(** The container of the first [n] entries of a container. *)
Definition first_entries (n : nat) (p : Parameters) : Parameters :=
  match p with
  | PDict items => PDict (take n items)
  | PList l => PList (take n l)
  | PTuple l => PTuple (take n l)
  | PGenerator g => PGenerator g
  end.

(** A dict has pairwise different keys; the other parameters are free. *)
Definition well_formed (p : Parameters) : bool :=
  match p with
  | PDict items => distinct_keys items
  | _ => true
  end.

End Py.

Import Py.
Open Scope py_scope.

(** ** The framework and the third-party clients *)

Module Airflow.

(** A connection descriptor of the credential store.  [port] is an [int],
    a [str] or [None]; [extra_dejson] is the parsed JSON of the [extra]
    field. *)
Record Connection : Type := mkConnection {
  host : option string;
  port : PyVal;
  schema : option string;
  login : option string;
  password : option string;
  extra_dejson : gmap string PyVal
}.

(** A ClickHouse client object: what its constructor was given. *)
Record ClickHouseClient : Type := mkClickHouseClient {
  ch_host : string;
  ch_kwargs : gmap string PyVal
}.

(** A Github client object: what its constructor was given. *)
Record GithubClient : Type := mkGithubClient {
  login_or_token : option string
}.

Inductive ClientObject : Type :=
| ClickHouse (c : ClickHouseClient)
| Github (c : GithubClient).

(** A reference to a client object: its position among the objects
    constructed so far.  Two handles are the same object when equal. *)
Definition Handle : Type := nat.

(** The framework around the providers.  [get_connection] is
    [BaseHook.get_connection], which the hooks inherit: the lookup in the
    credential store, which returns the descriptor or raises. *)
Class Runtime : Type := {
  Remote : Type;
  PyObject : Type;
  Context : Type;
  get_connection : string -> Outcome Connection
}.

Section World.
Context `{RT : Runtime}.

Record World : Type := mkWorld {
  clients : list ClientObject;
  logged : list string;
  generators : gmap N (list PyVal);
  remote : Remote
}.

Definition add_client (c : ClientObject) (w : World) : World :=
  mkWorld (clients w ++ [c]) (logged w) (generators w) (remote w).

(** [self.log.info(msg)]. *)
Definition log_info (msg : string) : PyM World unit :=
  modify (fun w => mkWorld (clients w) (logged w ++ [msg]) (generators w) (remote w)).

(** [next(g)]: the generator yields its first pending item and keeps the
    rest; an exhausted generator raises [StopIteration]. *)
Definition next_item (g : Generator) : PyM World PyVal :=
  fun w =>
    match generators w !! gen_addr g with
    | Some (x :: rest) =>
        (Return x,
         mkWorld (clients w) (logged w) (<[gen_addr g := rest]> (generators w))
           (remote w))
    | _ => (Raise (mkExc StopIteration ""), w)
    end.

(** A method of an object, run on the pair of the object and the world:
    a computation on the world alone leaves the object as it is. *)
Definition in_world {Self A : Type} (m : PyM World A) : PyM (Self * World) A :=
  fun sw =>
    let '(r, w') := m sw.2 in (r, (sw.1, w')).

End World.

(** The ClickHouse driver.  [Client_init_error host kwargs] is the error
    [Client(host, **kwargs)] raises, if it raises one; [Client_execute]
    is [client.execute(query, params=params, **kwargs)]. *)
Class ClickHouseDriver `{RT : Runtime} : Type := {
  Client_init_error : string -> gmap string PyVal -> option PyExc;
  Client_execute :
    ClickHouseClient -> string -> option Parameters -> gmap string PyVal ->
    PyM World PyObject
}.

(** What [getattr] finds under a name of the Github client. *)
Inductive Attribute : Type :=
| Method
| Data (type_name : string).

(** PyGithub.  [Github_init_error token] is the error
    [Github(login_or_token=token)] raises, if it raises one; [Github_attr]
    is the attribute surface of the client; [Github_call c name kwargs] is
    the call of the method [name] of [c] with keyword arguments [kwargs]. *)
Class PyGithub `{RT : Runtime} : Type := {
  Github_init_error : option string -> option PyExc;
  Github_attr : string -> option Attribute;
  Github_call : GithubClient -> string -> gmap string PyVal -> PyM World PyObject
}.

(** The interpreter, as far as the operator shows it.
    [annotations_deferred] says whether the annotations of a signature are
    evaluated only on demand (CPython from 3.14 on) and not when the [def]
    statement runs (CPython up to 3.13, without the [__future__] import);
    [callee_str c name] is how the message of a failed call names what is
    bound to [name] on the client [c]: the qualified name with parentheses
    for a method, the [str] of the value otherwise. *)
Class Interpreter : Type := {
  annotations_deferred : bool;
  callee_str : GithubClient -> string -> string
}.

End Airflow.

Import Airflow.

(** ** [airflow/providers/clickhouse/hooks/clickhouse.py] *)

Module ClickHouseHook.

Definition default_conn_name : string := "clickhouse_default".

(** The attributes of a hook instance. *)
Record Hook : Type := mkHook {
  clickhouse_conn_id : string;
  database : option string;
  client : option Handle
}.

Definition set_client (c : option Handle) (self : Hook) : Hook :=
  mkHook (clickhouse_conn_id self) (database self) c.

(** U+2026, the horizontal ellipsis, in UTF-8. *)
Definition ellipsis : string :=
  String (ascii_of_nat 226) (String (ascii_of_nat 128) (String (ascii_of_nat 166) "")).

Section Hook.
Context `{Driver : ClickHouseDriver}.

(** [ClickHouseClient(host, **kwargs)]: a new client object, or the error
    of the driver's constructor. *)
Definition ClickHouseClient_new (host : string) (kwargs : gmap string PyVal)
  : PyM World Handle :=
  fun w =>
    match Client_init_error host kwargs with
    | Some e => (Raise e, w)
    | None =>
        (Return (length (clients w)),
         add_client (ClickHouse (mkClickHouseClient host kwargs)) w)
    end.

(** [_log_params(parameters, limit)]. *)
Definition _log_params (parameters : Parameters) (limit : Z) : PyM World string :=
  short <- (if isinstance_Generator parameters then ret true
            else n <- lift (len parameters) ;; ret (n <=? limit)) ;;
  if (short : bool) then ret (str parameters)
  else
    head <- (if isinstance_dict parameters
             then items <- lift (dict_items parameters) ;;
                  first <- lift (islice items limit) ;;
                  ret (PDict (dict first))
             else lift (getslice parameters limit)) ;;
    let head_str := str head in
    closing_paren <- lift (str_index_last head_str) ;;
    n <- lift (len parameters) ;;
    ret (str_drop_last head_str +:+ " " +:+ ellipsis +:+ " and "
         +:+ str_int (n - limit) +:+ " more parameters"
         +:+ String closing_paren "").

(** [_log_query(sql, parameters)]; [_log_params] is called with its
    default limit. *)
Definition _log_query (sql : string) (parameters : option Parameters)
  : PyM World unit :=
  suffix <- match parameters with
            | Some p =>
                if truthy_parameters p
                then s <- _log_params p 10 ;; ret (" with " +:+ s)
                else ret ""
            | None => ret ""
            end ;;
  log_info (sql +:+ suffix).

(** [if field: kwargs.update(key=field)] for a field that is [None] or a
    [str]. *)
Definition update_if_truthy (key : string) (field : option string)
    (kwargs : gmap string PyVal) : gmap string PyVal :=
  match field with
  | Some s => if truthy_str (Some s) then <[key := VStr s]> kwargs else kwargs
  | None => kwargs
  end.

(** Lines 86 to 99 of [get_conn]: the keyword arguments for the client. *)
Definition connection_kwargs (self : Hook) (conn : Connection)
  : Outcome (gmap string PyVal) :=
  let connection_kwargs := extra_dejson conn in
  match (if truthy (port conn)
         then match py_int (port conn) with
              | Return p => Return (<["port" := VInt p]> connection_kwargs)
              | Raise e => Raise e
              end
         else Return connection_kwargs) with
  | Raise e => Raise e
  | Return connection_kwargs =>
      let connection_kwargs := update_if_truthy "user" (login conn) connection_kwargs in
      let connection_kwargs :=
        update_if_truthy "password" (password conn) connection_kwargs in
      Return (if truthy_str (database self)
              then update_if_truthy "database" (database self) connection_kwargs
              else update_if_truthy "database" (schema conn) connection_kwargs)
  end.

(** [conn.host or 'localhost']. *)
Definition host_or_localhost (conn : Connection) : string :=
  match host conn with
  | Some h => if truthy_str (Some h) then h else "localhost"
  | None => "localhost"
  end.

(** [get_conn()]. *)
Definition get_conn : PyM (Hook * World) Handle :=
  self <- gets fst ;;
  match client self with
  | Some c => ret c
  | None =>
      conn <- lift (get_connection (clickhouse_conn_id self)) ;;
      kwargs <- lift (connection_kwargs self conn) ;;
      c <- in_world (ClickHouseClient_new (host_or_localhost conn) kwargs) ;;
      modify (fun sw => (set_client (Some c) sw.1, sw.2)) ;;
      ret c
  end.

(** [ClickHouseHook(clickhouse_conn_id, database)]: after the base
    class's own initialization the attributes are set, then [get_conn] is
    called; the new object exists for the caller only when no step
    raised. *)
Definition __init__ (clickhouse_conn_id : string) (database : option string)
  : PyM World Hook :=
  fun w =>
    let self := mkHook clickhouse_conn_id database None in
    match get_conn (self, w) with
    | (Return _, (self', w')) => (Return self', w')
    | (Raise e, (_, w')) => (Raise e, w')
    end.

(** [self.client.execute(query, params=params, **kwargs)]. *)
Definition client_execute (sql : string) (params : option Parameters)
    (kwargs : gmap string PyVal) : PyM (Hook * World) PyObject :=
  self <- gets fst ;;
  match client self with
  | None => raise (mkExc AttributeError "'NoneType' object has no attribute 'execute'")
  | Some c =>
      w <- gets snd ;;
      match clients w !! c with
      | Some (ClickHouse obj) => in_world (Client_execute obj sql params kwargs)
      | _ =>
          (* not reached from a constructed hook: its handle is the
             ClickHouse client it created *)
          raise (mkExc AttributeError "'Github' object has no attribute 'execute'")
      end
  end.

(** [query(query, params, **kwargs)]. *)
Definition query (sql : string) (params : option Parameters)
    (kwargs : gmap string PyVal) : PyM (Hook * World) PyObject :=
  try_except
    (in_world (_log_query sql params) ;;
     result <- client_execute sql params kwargs ;;
     ret result)
    (fun error =>
       if isinstance_Exception error
       then raise (mkExc AirflowException
                     ("Failed to execute SQL Query, error: " +:+ exc_str error))
       else raise error).

(** [n] calls of [get_conn] in a row, with what each returned. *)
Fixpoint get_conn_times (n : nat) : PyM (Hook * World) (list Handle) :=
  match n with
  | O => ret []
  | S n' => c <- get_conn ;; cs <- get_conn_times n' ;; ret (c :: cs)
  end.

End Hook.
End ClickHouseHook.

(** ** [airflow/providers/github/hooks/github.py] *)

Module GithubHook.

Definition default_conn_name : string := "github_default".

(** The attributes of a hook instance. *)
Record Hook : Type := mkHook {
  connection : option Connection;
  github_conn_id : string;
  client : option Handle
}.

Definition set_connection (conn : option Connection) (self : Hook) : Hook :=
  mkHook conn (github_conn_id self) (client self).

Definition set_client (c : option Handle) (self : Hook) : Hook :=
  mkHook (connection self) (github_conn_id self) c.

Section Hook.
Context `{SDK : PyGithub}.

(** [GithubClient(login_or_token=access_token)]: a new client object, or
    the error of the constructor. *)
Definition GithubClient_new (access_token : option string) : PyM World Handle :=
  fun w =>
    match Github_init_error access_token with
    | Some e => (Raise e, w)
    | None =>
        (Return (length (clients w)), add_client (Github (mkGithubClient access_token)) w)
    end.

(** [get_conn()]. *)
Definition get_conn : PyM (Hook * World) Handle :=
  self <- gets fst ;;
  match client self with
  | Some c => ret c
  | None =>
      conn <- lift (get_connection (github_conn_id self)) ;;
      modify (fun sw => (set_connection (Some conn) sw.1, sw.2)) ;;
      let access_token := password conn in
      c <- in_world (GithubClient_new access_token) ;;
      modify (fun sw => (set_client (Some c) sw.1, sw.2)) ;;
      ret c
  end.

(** [GithubHook(github_conn_id)]: after the base class's own
    initialization the attributes are set, then [get_conn] is called; the
    new object exists for the caller only when no step raised. *)
Definition __init__ (github_conn_id : string) : PyM World Hook :=
  fun w =>
    let self := mkHook None github_conn_id None in
    match get_conn (self, w) with
    | (Return _, (self', w')) => (Return self', w')
    | (Raise e, (_, w')) => (Raise e, w')
    end.

(** [n] calls of [get_conn] in a row, with what each returned. *)
Fixpoint get_conn_times (n : nat) : PyM (Hook * World) (list Handle) :=
  match n with
  | O => ret []
  | S n' => c <- get_conn ;; cs <- get_conn_times n' ;; ret (c :: cs)
  end.

End Hook.

(** What [get_ui_field_behaviour] returns: the fields the connection form
    hides, and the labels and placeholders it shows instead of the
    generic ones. *)
Record FieldBehaviour : Type := mkFieldBehaviour {
  hidden_fields : list string;
  relabeling : gmap string string;
  placeholders : gmap string string
}.

(** [get_ui_field_behaviour()]. *)
Definition get_ui_field_behaviour : FieldBehaviour :=
  mkFieldBehaviour
    ["schema"; "port"; "host"; "login"; "extra"]
    (<["password" := "Github Access Token"]> ∅)
    (<["password" := "token credentials auth"]> ∅).

End GithubHook.

(** ** [airflow/providers/github/operators/github.py] *)

Module GithubOperator.

(** The names the module has bound when its class statement runs: the
    imports of lines 18 to 24. *)
Definition module_names : list string :=
  ["Dict"; "Optional"; "Callable"; "GithubException"; "AirflowException";
   "BaseOperator"; "GithubHook"].

(** The builtins that the annotations name. *)
Definition builtin_names : list string := ["str"; "dict"].

(** The names in the annotations of the two signatures of the class, in
    the order in which a [def] statement evaluates them: the parameters,
    then the result ([None] is no name). *)
Definition init_annotations : list string :=
  ["str"; "str"; "Optional"; "dict"; "Optional"; "Callable"].

Definition execute_annotations : list string := ["Dict"; "Any"].

(** The evaluation of a name in the module. *)
Definition lookup_name (name : string) : Outcome unit :=
  if bool_decide (name ∈ module_names ++ builtin_names)
  then Return tt
  else Raise (mkExc (OtherException "NameError")
                ("name '" +:+ name +:+ "' is not defined")).

Fixpoint evaluate_annotations (names : list string) : Outcome unit :=
  match names with
  | [] => Return tt
  | name :: names' =>
      match lookup_name name with
      | Return _ => evaluate_annotations names'
      | Raise e => Raise e
      end
  end.

Section Operator.
Context `{SDK : PyGithub} `{PY : Interpreter}.

(** The class statement of the module (lines 27 to 74): its body defines
    [__init__] and [execute], and each [def] evaluates the annotations of
    its signature unless the interpreter defers them.  The class, and with
    it every method, exists only when this returns. *)
Definition class_statement : Outcome unit :=
  if annotations_deferred then Return tt
  else match evaluate_annotations init_annotations with
       | Return _ => evaluate_annotations execute_annotations
       | Raise e => Raise e
       end.

(** The attributes of an operator instance. *)
Record Operator : Type := mkOperator {
  github_conn_id : string;
  method_name : string;
  github_method_args : option (gmap string PyVal);
  result_processor : option (Context -> PyObject -> PyM World PyObject)
}.

(** The body of [__init__], the attributes that
    [GithubOperator(github_method=..., ...)] sets; an argument left out is
    [None] here, and [github_conn_id] then takes its default.  A program
    gets an instance only where the class statement returned: [execute]
    below accounts for that. *)
Definition __init__ (github_method : string) (github_conn_id : option string)
    (github_method_args : option (gmap string PyVal))
    (result_processor : option (Context -> PyObject -> PyM World PyObject))
  : Operator :=
  mkOperator (default "github_default" github_conn_id) github_method
    github_method_args result_processor.

(** [getattr(resource, name)]: the client object and what the name is
    bound to on it. *)
Definition getattr (resource : option Handle) (name : string)
  : PyM World (GithubClient * Attribute) :=
  w <- gets (fun w => w) ;;
  match resource with
  | Some c =>
      match clients w !! c with
      | Some (Github obj) =>
          match Github_attr name with
          | Some a => ret (obj, a)
          | None =>
              raise (mkExc AttributeError
                       ("'Github' object has no attribute '" +:+ name +:+ "'"))
          end
      | _ =>
          (* not reached: the handle of a constructed hook is the Github
             client it created *)
          raise (mkExc AttributeError
                   ("'Client' object has no attribute '" +:+ name +:+ "'"))
      end
  | None =>
      (* not reached: a constructed hook holds a handle *)
      raise (mkExc AttributeError
               ("'NoneType' object has no attribute '" +:+ name +:+ "'"))
  end.

(** [f( **kwargs)] for the attribute [f] found under [name]: the mapping
    is expanded first, then the object is called.  The message of the
    failed expansion names the callee the way the interpreter does. *)
Definition call (f : GithubClient * Attribute) (name : string)
    (kwargs : option (gmap string PyVal)) : PyM World PyObject :=
  match kwargs with
  | None =>
      raise (mkExc TypeError
               (callee_str f.1 name
                +:+ " argument after ** must be a mapping, not NoneType"))
  | Some kw =>
      match f.2 with
      | Method => Github_call f.1 name kw
      | Data ty => raise (mkExc TypeError ("'" +:+ ty +:+ "' object is not callable"))
      end
  end.

(** The statements of the [try] block of [execute] (lines 61 to 69). *)
Definition attempt (self : Operator) (context : Context) : PyM World PyObject :=
  hook <- GithubHook.__init__ (github_conn_id self) ;;
  let resource := GithubHook.client hook in
  f <- getattr resource (method_name self) ;;
  github_result <- call f (method_name self) (github_method_args self) ;;
  match result_processor self with
  | Some process => process context github_result
  | None => ret github_result
  end.

(** The [except] clauses of [execute] (lines 71 to 74); what neither
    catches is raised again. *)
Definition handlers (exc : PyExc) : PyM World PyObject :=
  if isinstance_GithubException exc
  then raise (mkExc AirflowException
                ("Failed to execute GithubOperator, error: " +:+ exc_str exc))
  else if isinstance_Exception exc
  then raise (mkExc AirflowException ("Github operator error: " +:+ exc_str exc))
  else raise exc.

(** [execute(context)] as a program reaches it: through the class
    statement of the module, which has to return for the method to exist,
    and then the body of the method.  The arguments are those the operator
    was built with; the rendering of templated fields by the framework
    lies between construction and this call and is not part of the
    method. *)
Definition execute (self : Operator) (context : Context) : PyM World PyObject :=
  lift class_statement ;;
  try_except (attempt self context) handlers.

End Operator.
End GithubOperator.

(** ** [airflow/providers/apache/hdfs/sensors/hdfs.py] *)

Module HdfsSensors.

Definition _EXCEPTION_MESSAGE : string :=
"The old HDFS Sensors have been removed in 4.0.0 version of the apache.hdfs provider.
Please convert your DAGs to use the WebHdfsSensor or downgrade the provider to below 4.*
if you want to continue using it.
If you want to use earlier provider you can downgrade to latest released 3.* version
using `pip install apache-airflow-providers-apache-hdfs==3.2.1` (no constraints)
".

(** The three sensor classes. *)
Inductive SensorClass : Type := HdfsSensor | HdfsRegexSensor | HdfsFolderSensor.

(** A sensor instance, had one been built: its class and the arguments of
    its construction. *)
Record Sensor : Type := mkSensor {
  sensor_class : SensorClass;
  sensor_args : list PyVal;
  sensor_kwargs : gmap string PyVal
}.

Section Sensors.
Context `{RT : Runtime}.

(** [HdfsSensor.__init__( *args, **kwargs)]. *)
Definition HdfsSensor__init__ (args : list PyVal) (kwargs : gmap string PyVal)
  : PyM World Sensor :=
  raise (mkExc RuntimeError _EXCEPTION_MESSAGE).

(** [HdfsRegexSensor.__init__( *args, **kwargs)]. *)
Definition HdfsRegexSensor__init__ (args : list PyVal) (kwargs : gmap string PyVal)
  : PyM World Sensor :=
  raise (mkExc RuntimeError _EXCEPTION_MESSAGE).

(** [HdfsFolderSensor.__init__( *args, **kwargs)]. *)
Definition HdfsFolderSensor__init__ (args : list PyVal) (kwargs : gmap string PyVal)
  : PyM World Sensor :=
  raise (mkExc RuntimeError _EXCEPTION_MESSAGE).

End Sensors.
End HdfsSensors.

(** ** Notions used in the statements *)

(** The text that follows the preview of a container cut to [limit] of its
    [n] entries. *)
Definition more_parameters (n limit : Z) : string :=
  " " +:+ ClickHouseHook.ellipsis +:+ " and " +:+ str_int (n - limit)
  +:+ " more parameters".

(** The precedence the extras would have over the fields [port], [login]
    and [password] of a descriptor: a key of the extras survives in the
    parameters built for it. *)
Definition extras_take_precedence (self : ClickHouseHook.Hook) (conn : Connection)
  : Prop :=
  forall (kwargs : gmap string PyVal) (key : string) (v : PyVal),
    ClickHouseHook.connection_kwargs self conn = Return kwargs ->
    key ∈ ["port"; "user"; "password"] ->
    extra_dejson conn !! key = Some v ->
    kwargs !! key = Some v.

(** Lazy initialization of the ClickHouse hook, as a property of one
    construction: the hook it returns holds no handle and no client object
    was built. *)
Definition lazily_initialized `{Driver : ClickHouseDriver}
    (conn_id : string) (db : option string) (w : World) : Prop :=
  forall (hook : ClickHouseHook.Hook) (w' : World),
    ClickHouseHook.__init__ conn_id db w = (Return hook, w') ->
    ClickHouseHook.client hook = None /\ clients w' = clients w.

(** A field of a descriptor as the connection form names it. *)
Inductive FieldValue : Type :=
| FText (o : option string)
| FPort (v : PyVal)
| FExtra (m : gmap string PyVal).

Definition field (name : string) (conn : Connection) : option FieldValue :=
  if String.eqb name "host" then Some (FText (host conn))
  else if String.eqb name "port" then Some (FPort (port conn))
  else if String.eqb name "schema" then Some (FText (schema conn))
  else if String.eqb name "login" then Some (FText (login conn))
  else if String.eqb name "password" then Some (FText (password conn))
  else if String.eqb name "extra" then Some (FExtra (extra_dejson conn))
  else None.

(** The text an [except] clause of the operator puts before the message
    of the error it caught. *)
Definition operator_prefix (e : PyExc) : string :=
  if isinstance_GithubException e
  then "Failed to execute GithubOperator, error: "
  else "Github operator error: ".

(** ** Inputs used in the examples below *)

Module Examples.

(** The descriptor of the end-to-end scenario. *)
Definition example_descriptor : Connection :=
  mkConnection (Some "db.example.com") (VStr "9000") (Some "default")
    (Some "root") (Some "pw") ∅.

(** The connection parameters the scenario expects. *)
Definition example_kwargs : gmap string PyVal :=
  <["database" := VStr "default"]>
    (<["password" := VStr "pw"]>
       (<["user" := VStr "root"]> (<["port" := VInt 9000]> ∅))).

(** A descriptor whose extras name a port of their own. *)
Definition extra_port_descriptor : Connection :=
  mkConnection None (VInt 9000) None None None (<["port" := VInt 1234]> ∅).

(** A credential store with the scenario's descriptor under
    [clickhouse_default], the extras' one under [extra_port], a token
    under [github_default] and nothing else. *)
Definition example_runtime : Runtime := {|
  Remote := unit;
  PyObject := PyVal;
  Context := unit;
  get_connection := fun conn_id =>
    if String.eqb conn_id "clickhouse_default" then Return example_descriptor
    else if String.eqb conn_id "extra_port" then Return extra_port_descriptor
    else if String.eqb conn_id "github_default"
    then Return (mkConnection None VNone None None (Some "token") ∅)
    else Raise (mkExc AirflowNotFoundException
                  ("The conn_id `" +:+ conn_id +:+ "` isn't defined"))
|}.

(** A driver that accepts every argument; its [execute] fails on the
    query [boom] and answers [1] otherwise. *)
Definition example_driver : @ClickHouseDriver example_runtime := {|
  Client_init_error := fun _ _ => None;
  Client_execute := fun _ sql _ _ =>
    if String.eqb sql "boom"
    then raise (mkExc (OtherException "ServerException") "Code: 62. Syntax error")
    else @ret (@World example_runtime) PyVal (VInt 1)
|}.

(** A Github client with the methods [get_user], which answers, and
    [get_repo], which fails the way the SDK does. *)
Definition example_sdk : @PyGithub example_runtime := {|
  Github_init_error := fun _ => None;
  Github_attr := fun name =>
    if String.eqb name "get_user" || String.eqb name "get_repo"
    then Some Method else None;
  Github_call := fun _ name _ =>
    if String.eqb name "get_repo"
    then raise (mkExc GithubException "404 Not Found")
    else @ret (@World example_runtime) PyVal (VStr "octocat")
|}.

Definition empty_world : @World example_runtime :=
  @mkWorld example_runtime [] [] ∅ tt.

(** A dict of the fifteen entries [1: 1, 2: 4, ..., 15: 225]. *)
Definition fifteen_entries : list (PyVal * PyVal) :=
  map (fun i => (VInt (Z.of_nat i), VInt (Z.of_nat (i * i)))) (seq 1 15).

(** A second store: a descriptor whose port is no number under
    [bad_port], and two Github descriptors that share their token and
    differ in every other field. *)
Definition bad_port_descriptor : Connection :=
  mkConnection (Some "db.example.com") (VStr "http") None None None ∅.

Definition github_a : Connection :=
  mkConnection (Some "a.example.com") (VInt 443) (Some "s") (Some "alice")
    (Some "token") ∅.

Definition github_b : Connection :=
  mkConnection None VNone None None (Some "token") (<["per_page" := VInt 50]> ∅).

Definition second_runtime : Runtime := {|
  Remote := unit;
  PyObject := PyVal;
  Context := unit;
  get_connection := fun conn_id =>
    if String.eqb conn_id "bad_port" then Return bad_port_descriptor
    else if String.eqb conn_id "github_a" then Return github_a
    else if String.eqb conn_id "github_b" then Return github_b
    else if String.eqb conn_id "clickhouse_default" then Return example_descriptor
    else Raise (mkExc AirflowNotFoundException
                  ("The conn_id `" +:+ conn_id +:+ "` isn't defined"))
|}.

(** A driver whose [execute] is interrupted on the query [interrupt]. *)
Definition second_driver : @ClickHouseDriver second_runtime := {|
  Client_init_error := fun _ _ => None;
  Client_execute := fun _ sql _ _ =>
    if String.eqb sql "interrupt"
    then raise (mkExc (SystemSignal "KeyboardInterrupt") "")
    else @ret (@World second_runtime) PyVal (VInt 1)
|}.

(** A Github client with the integer attribute [per_page] and the methods
    [get_user], which answers, and [interrupt], which is interrupted. *)
Definition second_sdk : @PyGithub second_runtime := {|
  Github_init_error := fun _ => None;
  Github_attr := fun name =>
    if String.eqb name "per_page" then Some (Data "int")
    else if String.eqb name "get_user" || String.eqb name "interrupt"
    then Some Method else None;
  Github_call := fun _ name _ =>
    if String.eqb name "interrupt"
    then raise (mkExc (SystemSignal "KeyboardInterrupt") "")
    else @ret (@World second_runtime) PyVal (VStr "octocat")
|}.

Definition second_world : @World second_runtime :=
  @mkWorld second_runtime [] [] ∅ tt.

(** An interpreter that evaluates annotations when a [def] runs and names
    a method in a failed call by its qualified name, as CPython 3.11
    does, and one that defers the annotations. *)
Definition eager_interpreter : Interpreter := {|
  annotations_deferred := false;
  callee_str := fun _ name =>
    if String.eqb name "per_page" then "30"
    else "github.MainClass.Github." +:+ name +:+ "()"
|}.

Definition deferring_interpreter : Interpreter := {|
  annotations_deferred := true;
  callee_str := fun _ name =>
    if String.eqb name "per_page" then "30"
    else "github.MainClass.Github." +:+ name +:+ "()"
|}.

End Examples.

(** ** Facts about the Python primitives *)

Section PyFacts.

Lemma append_cons (x : ascii) (a b : string) :
  String x a +:+ b = String x (a +:+ b).
Proof. reflexivity. Qed.

Lemma append_nil (b : string) : "" +:+ b = b.
Proof. reflexivity. Qed.

Lemma append_assoc (a b c : string) : (a +:+ b) +:+ c = a +:+ (b +:+ c).
Proof.
  induction a as [|x a IH]; rewrite ?append_nil, ?append_cons;
    [reflexivity | now rewrite IH].
Qed.

Lemma append_snoc_not_empty (s : string) (c : ascii) : s +:+ String c "" <> "".
Proof. destruct s; rewrite ?append_nil, ?append_cons; discriminate. Qed.

Lemma str_last_snoc (s : string) (c : ascii) :
  str_last (s +:+ String c "") = Some c.
Proof.
  induction s as [|x s IH]; rewrite ?append_nil, ?append_cons; [reflexivity |].
  pose proof (append_snoc_not_empty s c) as Hne.
  simpl. destruct (s +:+ String c "") eqn:E; [contradiction | exact IH].
Qed.

Lemma str_drop_last_snoc (s : string) (c : ascii) :
  str_drop_last (s +:+ String c "") = s.
Proof.
  induction s as [|x s IH]; rewrite ?append_nil, ?append_cons; [reflexivity |].
  pose proof (append_snoc_not_empty s c) as Hne.
  simpl. destruct (s +:+ String c "") eqn:E; [contradiction |].
  now rewrite IH.
Qed.

Lemma str_container (p : Parameters) :
  isinstance_Generator p = false ->
  str p = str_open p +:+ String (closing_paren p) "".
Proof.
  destruct p as [items|l|l|g]; simpl; intros Hg; try discriminate.
  - now rewrite append_assoc.
  - now rewrite append_assoc.
  - destruct l as [|x [|y l]]; rewrite ?append_assoc; reflexivity.
Qed.

Lemma dict_setitem_new (k v : PyVal) (d : list (PyVal * PyVal)) :
  Forall (fun kv => py_eqb kv.1 k = false) d ->
  dict_setitem k v d = d ++ [(k, v)].
Proof.
  induction 1 as [|[k' v'] d Hk _ IH]; simpl; [reflexivity |].
  simpl in Hk. now rewrite Hk, IH.
Qed.

Lemma dict_fold_distinct (d acc : list (PyVal * PyVal)) :
  distinct_keys d = true ->
  Forall (fun old => Forall (fun kv => py_eqb old.1 kv.1 = false) d) acc ->
  fold_left (fun d kv => dict_setitem kv.1 kv.2 d) d acc = acc ++ d.
Proof.
  revert acc. induction d as [|[k v] d IH]; intros acc Hd Hacc; simpl.
  - now rewrite app_nil_r.
  - simpl in Hd. apply andb_true_iff in Hd as [Hk Hd].
    rewrite dict_setitem_new.
    + rewrite IH; [now rewrite <- app_assoc | exact Hd |].
      apply Forall_app. split.
      * eapply Forall_impl; [exact Hacc |].
        intros old Hold. now inversion Hold.
      * constructor; [| constructor].
        apply Forall_forall. intros kv Hin.
        rewrite forallb_forall in Hk.
        apply list_elem_of_In in Hin. apply Hk in Hin.
        now apply negb_true_iff in Hin.
    + eapply Forall_impl; [exact Hacc |].
      intros old Hold. now inversion Hold.
Qed.

Lemma distinct_keys_take (n : nat) (d : list (PyVal * PyVal)) :
  distinct_keys d = true -> distinct_keys (take n d) = true.
Proof.
  revert n. induction d as [|[k v] d IH]; intros [|n] Hd; simpl; try reflexivity.
  simpl in Hd. apply andb_true_iff in Hd as [Hk Hd].
  rewrite IH by exact Hd. rewrite andb_true_r.
  rewrite forallb_forall in *. intros kv Hin. apply Hk.
  apply list_elem_of_In. apply list_elem_of_In in Hin.
  eapply subseteq_take; exact Hin.
Qed.

(** Building a dict from items with distinct keys keeps them as they
    are. *)
Lemma dict_distinct (d : list (PyVal * PyVal)) :
  distinct_keys d = true -> dict d = d.
Proof.
  intros Hd. unfold dict. now rewrite dict_fold_distinct.
Qed.

End PyFacts.

(** ** The ClickHouse hook *)

Section ClickHouseHookFacts.
Context `{Driver : ClickHouseDriver}.

Lemma log_params_generator (g : Generator) (limit : Z) (w : World) :
  ClickHouseHook._log_params (PGenerator g) limit w = (Return (str_generator g), w).
Proof. reflexivity. Qed.

Lemma len_container (p : Parameters) :
  isinstance_Generator p = false -> len p = Return (Z.of_nat (entries p)).
Proof. destruct p; simpl; intros; [reflexivity .. | discriminate]. Qed.

Lemma log_params_short (p : Parameters) (limit : Z) (w : World) :
  isinstance_Generator p = false ->
  Z.of_nat (entries p) <= limit ->
  ClickHouseHook._log_params p limit w = (Return (str p), w).
Proof.
  intros Hc Hle. unfold ClickHouseHook._log_params, bind, lift, ret.
  rewrite Hc, (len_container p Hc).
  apply Z.leb_le in Hle. now rewrite Hle.
Qed.

(** The head the code builds is the container of the first entries. *)
Lemma head_first_entries (p : Parameters) (limit : Z) :
  isinstance_Generator p = false ->
  0 <= limit ->
  well_formed p = true ->
  (if isinstance_dict p
   then match dict_items p with
        | Return items =>
            match islice items limit with
            | Return first => Return (PDict (dict first))
            | Raise e => Raise e
            end
        | Raise e => Raise e
        end
   else getslice p limit) = Return (first_entries (Z.to_nat limit) p).
Proof.
  intros Hc Hl Hwf. assert ((limit <? 0) = false) as Hneg by lia.
  destruct p as [items|l|l|g]; simpl in *; try discriminate.
  - unfold islice. rewrite Hneg.
    now rewrite dict_distinct by (now apply distinct_keys_take).
  - unfold slice_to. now rewrite Hneg.
  - unfold slice_to. now rewrite Hneg.
Qed.

Lemma closing_paren_first_entries (n : nat) (p : Parameters) :
  closing_paren (first_entries n p) = closing_paren p.
Proof. now destruct p. Qed.

Lemma log_params_long (p : Parameters) (limit : Z) (w : World) :
  isinstance_Generator p = false ->
  well_formed p = true ->
  0 <= limit < Z.of_nat (entries p) ->
  ClickHouseHook._log_params p limit w =
  (Return (str_open (first_entries (Z.to_nat limit) p)
           +:+ more_parameters (Z.of_nat (entries p)) limit
           +:+ String (closing_paren p) ""), w).
Proof.
  intros Hc Hwf [Hl Hlt].
  pose proof (head_first_entries p limit Hc Hl Hwf) as Hhead.
  unfold ClickHouseHook._log_params, bind, lift, ret.
  rewrite Hc, (len_container p Hc).
  assert ((Z.of_nat (entries p) <=? limit) = false) as -> by lia.
  destruct (isinstance_dict p) eqn:Hd.
  - destruct (dict_items p) as [items|e]; [| discriminate].
    destruct (islice items limit) as [first|e]; [| discriminate].
    injection Hhead as ->.
    rewrite str_container by (now destruct p).
    unfold str_index_last. rewrite str_last_snoc, str_drop_last_snoc.
    rewrite closing_paren_first_entries. unfold more_parameters.
    now rewrite !append_assoc.
  - rewrite Hhead.
    rewrite str_container by (now destruct p).
    unfold str_index_last. rewrite str_last_snoc, str_drop_last_snoc.
    rewrite closing_paren_first_entries. unfold more_parameters.
    now rewrite !append_assoc.
Qed.

End ClickHouseHookFacts.

Section ClickHouseHookConnection.
Context `{Driver : ClickHouseDriver}.

Import ClickHouseHook.

(** An initialized hook answers from its cache and changes nothing. *)
Lemma clickhouse_get_conn_cached (self : Hook) (w : World) (c : Handle) :
  client self = Some c -> get_conn (self, w) = (Return c, (self, w)).
Proof.
  intros Hc. unfold get_conn, bind, gets, ret. simpl. now rewrite Hc.
Qed.

(** The steps of [get_conn] on a hook without a handle. *)
Lemma clickhouse_get_conn_fresh (self : Hook) (w : World) :
  client self = None ->
  get_conn (self, w) =
  match get_connection (clickhouse_conn_id self) with
  | Raise e => (Raise e, (self, w))
  | Return conn =>
      match connection_kwargs self conn with
      | Raise e => (Raise e, (self, w))
      | Return kwargs =>
          match Client_init_error (host_or_localhost conn) kwargs with
          | Some e => (Raise e, (self, w))
          | None =>
              (Return (length (clients w)),
               (set_client (Some (length (clients w))) self,
                add_client
                  (ClickHouse (mkClickHouseClient (host_or_localhost conn) kwargs)) w))
          end
      end
  end.
Proof.
  intros Hc. unfold get_conn, bind, gets, ret, lift, in_world, modify. simpl.
  rewrite Hc.
  destruct (get_connection (clickhouse_conn_id self)) as [conn|e]; [| reflexivity].
  destruct (connection_kwargs self conn) as [kwargs|e]; [| reflexivity].
  unfold ClickHouseClient_new.
  destruct (Client_init_error (host_or_localhost conn) kwargs); reflexivity.
Qed.

(** What a returning constructor has done: one client object was built,
    and the hook holds its handle. *)
Lemma clickhouse_init_returns (conn_id : string) (db : option string)
    (w w' : World) (hook : Hook) :
  __init__ conn_id db w = (Return hook, w') ->
  exists conn kwargs,
    get_connection conn_id = Return conn /\
    connection_kwargs (mkHook conn_id db None) conn = Return kwargs /\
    Client_init_error (host_or_localhost conn) kwargs = None /\
    hook = mkHook conn_id db (Some (length (clients w))) /\
    w' = add_client
           (ClickHouse (mkClickHouseClient (host_or_localhost conn) kwargs)) w.
Proof.
  unfold __init__. rewrite clickhouse_get_conn_fresh by reflexivity. simpl.
  destruct (get_connection conn_id) as [conn|e] eqn:Hconn; [| discriminate].
  destruct (connection_kwargs _ conn) as [kwargs|e] eqn:Hkw; [| discriminate].
  destruct (Client_init_error _ kwargs) eqn:Hinit; [discriminate |].
  intros [= <- <-]. exists conn, kwargs. repeat split; first [reflexivity | assumption].
Qed.

(** A raising constructor has built no client object. *)
Lemma clickhouse_init_raises (conn_id : string) (db : option string)
    (w w' : World) (e : PyExc) :
  __init__ conn_id db w = (Raise e, w') -> w' = w.
Proof.
  unfold __init__. rewrite clickhouse_get_conn_fresh by reflexivity. simpl.
  destruct (get_connection conn_id) as [conn|e0]; [| now intros [= _ <-]].
  destruct (connection_kwargs _ conn) as [kwargs|e0]; [| now intros [= _ <-]].
  destruct (Client_init_error _ kwargs) eqn:Hinit; [now intros [= _ <-] | discriminate].
Qed.

Lemma clickhouse_get_conn_times_cached (n : nat) (self : Hook) (w : World)
    (c : Handle) :
  client self = Some c ->
  get_conn_times n (self, w) = (Return (replicate n c), (self, w)).
Proof.
  intros Hc. induction n as [|n IH]; [reflexivity |].
  simpl. unfold bind at 1. rewrite (clickhouse_get_conn_cached _ _ _ Hc).
  unfold bind at 1. now rewrite IH.
Qed.

(** The lookups of the parameters [connection_kwargs] builds. *)
Lemma update_if_truthy_lookup (key k : string) (field : option string)
    (kw : gmap string PyVal) :
  update_if_truthy key field kw !! k =
  if decide (key = k)
  then match field with
       | Some s => if truthy_str (Some s) then Some (VStr s) else kw !! k
       | None => kw !! k
       end
  else kw !! k.
Proof.
  unfold update_if_truthy.
  destruct field as [s|]; [| now destruct (decide (key = k))].
  destruct (truthy_str (Some s)); [| now destruct (decide (key = k))].
  apply lookup_insert.
Qed.

End ClickHouseHookConnection.

(** ** The Github hook *)

Section GithubHookConnection.
Context `{SDK : PyGithub}.

Import GithubHook.

(** An initialized hook answers from its cache and changes nothing. *)
Lemma github_get_conn_cached (self : Hook) (w : World) (c : Handle) :
  client self = Some c -> get_conn (self, w) = (Return c, (self, w)).
Proof.
  intros Hc. unfold get_conn, bind, gets, ret. simpl. now rewrite Hc.
Qed.

(** The steps of [get_conn] on a hook without a handle. *)
Lemma github_get_conn_fresh (self : Hook) (w : World) :
  client self = None ->
  get_conn (self, w) =
  match get_connection (github_conn_id self) with
  | Raise e => (Raise e, (self, w))
  | Return conn =>
      match Github_init_error (password conn) with
      | Some e => (Raise e, (set_connection (Some conn) self, w))
      | None =>
          (Return (length (clients w)),
           (set_client (Some (length (clients w))) (set_connection (Some conn) self),
            add_client (Github (mkGithubClient (password conn))) w))
      end
  end.
Proof.
  intros Hc. unfold get_conn, bind, gets, ret, lift, in_world, modify. simpl.
  rewrite Hc.
  destruct (get_connection (github_conn_id self)) as [conn|e]; [| reflexivity].
  simpl. unfold GithubClient_new.
  destruct (Github_init_error (password conn)); reflexivity.
Qed.

(** What a returning constructor has done: one client object was built,
    and the hook holds its handle. *)
Lemma github_init_returns (conn_id : string) (w w' : World) (hook : Hook) :
  __init__ conn_id w = (Return hook, w') ->
  exists conn,
    get_connection conn_id = Return conn /\
    Github_init_error (password conn) = None /\
    hook = mkHook (Some conn) conn_id (Some (length (clients w))) /\
    w' = add_client (Github (mkGithubClient (password conn))) w.
Proof.
  unfold __init__. rewrite github_get_conn_fresh by reflexivity. simpl.
  destruct (get_connection conn_id) as [conn|e] eqn:Hconn; [| discriminate].
  destruct (Github_init_error (password conn)) eqn:Hinit; [discriminate |].
  intros [= <- <-]. exists conn. repeat split; first [reflexivity | assumption].
Qed.

(** A raising constructor has built no client object. *)
Lemma github_init_raises (conn_id : string) (w w' : World) (e : PyExc) :
  __init__ conn_id w = (Raise e, w') -> w' = w.
Proof.
  unfold __init__. rewrite github_get_conn_fresh by reflexivity. simpl.
  destruct (get_connection conn_id) as [conn|e0]; [| now intros [= _ <-]].
  destruct (Github_init_error (password conn)); [now intros [= _ <-] | discriminate].
Qed.

Lemma github_get_conn_times_cached (n : nat) (self : Hook) (w : World)
    (c : Handle) :
  client self = Some c ->
  get_conn_times n (self, w) = (Return (replicate n c), (self, w)).
Proof.
  intros Hc. induction n as [|n IH]; [reflexivity |].
  simpl. unfold bind at 1. rewrite (github_get_conn_cached _ _ _ Hc).
  unfold bind at 1. now rewrite IH.
Qed.

End GithubHookConnection.

(** ** Layering of the connection parameters *)

Section Layering.
Context `{Driver : ClickHouseDriver}.

Import ClickHouseHook.

Lemma connection_kwargs_lookup (self : Hook) (conn : Connection)
    (kwargs : gmap string PyVal) :
  connection_kwargs self conn = Return kwargs ->
  (if truthy (port conn)
   then exists p, py_int (port conn) = Return p /\ kwargs !! "port" = Some (VInt p)
   else kwargs !! "port" = extra_dejson conn !! "port") /\
  kwargs !! "user" =
    (if truthy_str (login conn) then VStr <$> login conn
     else extra_dejson conn !! "user") /\
  kwargs !! "password" =
    (if truthy_str (password conn) then VStr <$> password conn
     else extra_dejson conn !! "password") /\
  kwargs !! "database" =
    (if truthy_str (database self) then VStr <$> database self
     else if truthy_str (schema conn) then VStr <$> schema conn
     else extra_dejson conn !! "database") /\
  (forall k : string,
     k ∉ ["port"; "user"; "password"; "database"] ->
     kwargs !! k = extra_dejson conn !! k).
Proof.
  unfold connection_kwargs. intros Hkw.
  assert (exists kw0,
    (if truthy (port conn)
     then exists p, py_int (port conn) = Return p /\ kw0 = <["port" := VInt p]> (extra_dejson conn)
     else kw0 = extra_dejson conn) /\
    kwargs =
      (if truthy_str (database self)
       then update_if_truthy "database" (database self)
              (update_if_truthy "password" (password conn)
                 (update_if_truthy "user" (login conn) kw0))
       else update_if_truthy "database" (schema conn)
              (update_if_truthy "password" (password conn)
                 (update_if_truthy "user" (login conn) kw0)))) as (kw0 & Hport & ->).
  { destruct (truthy (port conn)).
    - destruct (py_int (port conn)) as [p|e]; [| discriminate].
      injection Hkw as <-. eexists. split; [exists p; split; reflexivity | reflexivity].
    - injection Hkw as <-. eexists. split; reflexivity. }
  clear Hkw.
  assert (forall k, k <> "port" -> kw0 !! k = extra_dejson conn !! k) as Hother.
  { intros k Hk. destruct (truthy (port conn)).
    - destruct Hport as (p & _ & ->). now rewrite lookup_insert_ne.
    - now subst. }
  repeat split.
  - destruct (truthy (port conn)).
    + destruct Hport as (p & Hp & ->). exists p. split; [exact Hp |].
      destruct (truthy_str (database self));
        rewrite !update_if_truthy_lookup; repeat (case_decide; try congruence);
        apply lookup_insert_eq.
    + subst kw0.
      destruct (truthy_str (database self));
        rewrite !update_if_truthy_lookup; repeat (case_decide; try congruence);
        reflexivity.
  - destruct (truthy_str (database self));
      rewrite !update_if_truthy_lookup; repeat (case_decide; try congruence);
      rewrite Hother by discriminate;
      destruct (login conn) as [l|]; simpl; try reflexivity;
      destruct (negb (l =? "")%string); reflexivity.
  - destruct (truthy_str (database self));
      rewrite !update_if_truthy_lookup; repeat (case_decide; try congruence);
      rewrite Hother by discriminate;
      destruct (password conn) as [l|]; simpl; try reflexivity;
      destruct (negb (l =? "")%string); reflexivity.
  - destruct (truthy_str (database self)) eqn:Hdb;
      rewrite !update_if_truthy_lookup; repeat (case_decide; try congruence);
      rewrite Hother by discriminate.
    + destruct (database self) as [d|]; [| discriminate]. now rewrite Hdb.
    + destruct (schema conn) as [s|]; reflexivity.
  - intros k Hk.
    assert (k <> "port" /\ k <> "user" /\ k <> "password" /\ k <> "database")
      as (H1 & H2 & H3 & H4).
    { repeat split; intros ->; apply Hk; set_solver. }
    destruct (truthy_str (database self));
      rewrite !update_if_truthy_lookup; repeat (case_decide; try congruence);
      now apply Hother.
Qed.

(** C1, as amended.  When [get_conn] builds a client for a hook without a
    handle, the descriptor's primary fields, each taken only if truthy,
    take precedence over the extras: [port] (converted to an integer),
    [login] as [user], [password], and as [database] the hook's own
    [database] or else the descriptor's [schema].  A key of the extras is
    kept exactly when no truthy primary field writes it. *)
Theorem get_conn_primary_fields_over_extras
    (self : Hook) (w : World) (conn : Connection)
    (c : Handle) (self' : Hook) (w' : World) :
  client self = None ->
  get_connection (clickhouse_conn_id self) = Return conn ->
  get_conn (self, w) = (Return c, (self', w')) ->
  exists kwargs : gmap string PyVal,
    clients w' =
      clients w ++ [ClickHouse (mkClickHouseClient (host_or_localhost conn) kwargs)] /\
    (if truthy (port conn)
     then exists p, py_int (port conn) = Return p /\ kwargs !! "port" = Some (VInt p)
     else kwargs !! "port" = extra_dejson conn !! "port") /\
    kwargs !! "user" =
      (if truthy_str (login conn) then VStr <$> login conn
       else extra_dejson conn !! "user") /\
    kwargs !! "password" =
      (if truthy_str (password conn) then VStr <$> password conn
       else extra_dejson conn !! "password") /\
    kwargs !! "database" =
      (if truthy_str (database self) then VStr <$> database self
       else if truthy_str (schema conn) then VStr <$> schema conn
       else extra_dejson conn !! "database") /\
    (forall k : string,
       k ∉ ["port"; "user"; "password"; "database"] ->
       kwargs !! k = extra_dejson conn !! k).
Proof.
  intros Hc Hconn. rewrite clickhouse_get_conn_fresh by exact Hc. rewrite Hconn.
  destruct (connection_kwargs self conn) as [kwargs|e] eqn:Hkw; [| discriminate].
  destruct (Client_init_error _ kwargs); [discriminate |].
  intros [= <- <- <-]. exists kwargs. split; [reflexivity |].
  now apply connection_kwargs_lookup.
Qed.

End Layering.

(** C1, refuted as stated.  For the descriptor whose port is 9000 and
    whose extras say [port: 1234], the extras do not take precedence: the
    parameters built carry the port 9000. *)
Lemma extras_do_not_take_precedence :
  ~ extras_take_precedence
      (ClickHouseHook.mkHook "extra_port" None None) Examples.extra_port_descriptor.
Proof.
  intros Hclaim.
  specialize (Hclaim (<["port" := VInt 9000]> (<["port" := VInt 1234]> ∅))
                "port" (VInt 1234) eq_refl).
  assert ("port" ∈ ["port"; "user"; "password"]) as Hin by set_solver.
  specialize (Hclaim Hin eq_refl).
  vm_compute in Hclaim. discriminate Hclaim.
Qed.

(** The amended layering at that descriptor: the client is built with the
    descriptor's port. *)
Lemma get_conn_primary_fields_over_extras_witness :
  exists kwargs : gmap string PyVal,
    clients
      (add_client
         (ClickHouse
            (mkClickHouseClient "localhost"
               (<["port" := VInt 9000]> (<["port" := VInt 1234]> ∅))))
         Examples.empty_world) =
    clients Examples.empty_world ++ [ClickHouse (mkClickHouseClient "localhost" kwargs)] /\
    kwargs !! "port" = Some (VInt 9000).
Proof.
  destruct (@get_conn_primary_fields_over_extras
              Examples.example_runtime Examples.example_driver
              (ClickHouseHook.mkHook "extra_port" None None)
              Examples.empty_world Examples.extra_port_descriptor
              0%nat
              (ClickHouseHook.mkHook "extra_port" None (Some 0%nat))
              (add_client
                 (ClickHouse
                    (mkClickHouseClient "localhost"
                       (<["port" := VInt 9000]> (<["port" := VInt 1234]> ∅))))
                 Examples.empty_world)
              eq_refl eq_refl eq_refl)
    as (kwargs & Hclients & Hport & _).
  exists kwargs. split; [exact Hclients |].
  simpl in Hport. destruct Hport as (p & Hp & Hlookup).
  injection Hp as <-. exact Hlookup.
Defined.

(** ** The end-to-end scenario and the default host *)

Section Scenario.
Context `{Driver : ClickHouseDriver}.

Import ClickHouseHook.

(** C9.  For the descriptor of the scenario and a hook without a database
    of its own, [get_conn] builds the client for the host
    [db.example.com] with exactly the parameters [port=9000] (an
    integer), [user="root"], [password="pw"] and [database="default"].
    For any descriptor whose host is unset, the client is built for
    [localhost]: [get_conn] calls the constructor with that host whenever
    the parameters can be built, and a client it returns was built so. *)
Theorem get_conn_scenario_and_default_host :
  (forall (self : Hook) (w : World),
     client self = None ->
     database self = None ->
     get_connection (clickhouse_conn_id self) = Return Examples.example_descriptor ->
     Client_init_error "db.example.com" Examples.example_kwargs = None ->
     get_conn (self, w) =
       (Return (length (clients w)),
        (set_client (Some (length (clients w))) self,
         add_client
           (ClickHouse (mkClickHouseClient "db.example.com" Examples.example_kwargs))
           w)) /\
     Examples.example_kwargs !! "port" = Some (VInt 9000) /\
     Examples.example_kwargs !! "user" = Some (VStr "root") /\
     Examples.example_kwargs !! "password" = Some (VStr "pw") /\
     Examples.example_kwargs !! "database" = Some (VStr "default")) /\
  (forall (self : Hook) (w : World) (conn : Connection),
     client self = None ->
     get_connection (clickhouse_conn_id self) = Return conn ->
     host conn = None ->
     (forall kwargs : gmap string PyVal,
        connection_kwargs self conn = Return kwargs ->
        get_conn (self, w) =
          match Client_init_error "localhost" kwargs with
          | Some e => (Raise e, (self, w))
          | None =>
              (Return (length (clients w)),
               (set_client (Some (length (clients w))) self,
                add_client (ClickHouse (mkClickHouseClient "localhost" kwargs)) w))
          end) /\
     (forall (c : Handle) (self' : Hook) (w' : World),
        get_conn (self, w) = (Return c, (self', w')) ->
        exists kwargs : gmap string PyVal,
          client self' = Some c /\
          clients w' !! c = Some (ClickHouse (mkClickHouseClient "localhost" kwargs)))).
Proof.
  split.
  - intros self w Hc Hdb Hconn Hinit.
    split; [| repeat split; reflexivity].
    rewrite clickhouse_get_conn_fresh by exact Hc. rewrite Hconn.
    assert (connection_kwargs self Examples.example_descriptor
            = Return Examples.example_kwargs) as ->.
    { unfold connection_kwargs. rewrite Hdb. reflexivity. }
    assert (host_or_localhost Examples.example_descriptor = "db.example.com") as ->
        by reflexivity.
    now rewrite Hinit.
  - intros self w conn Hc Hconn Hhost.
    assert (host_or_localhost conn = "localhost") as Hlocal.
    { unfold host_or_localhost. now rewrite Hhost. }
    split.
    + intros kwargs Hkw.
      rewrite clickhouse_get_conn_fresh by exact Hc.
      now rewrite Hconn, Hkw, Hlocal.
    + intros c self' w'.
      rewrite clickhouse_get_conn_fresh by exact Hc. rewrite Hconn, Hlocal.
      destruct (connection_kwargs self conn) as [kwargs|e]; [| discriminate].
      destruct (Client_init_error "localhost" kwargs); [discriminate |].
      intros [= <- <- <-]. exists kwargs. split; [reflexivity |].
      unfold add_client. simpl.
      rewrite lookup_app_r by reflexivity.
      now rewrite Nat.sub_diag.
Qed.

End Scenario.

(** The scenario run in the example store: the hook built for
    [clickhouse_default] holds the handle of the one client, built for
    [db.example.com] with the expected parameters. *)
Lemma get_conn_scenario_and_default_host_witness :
  @ClickHouseHook.get_conn Examples.example_runtime Examples.example_driver
    (ClickHouseHook.mkHook "clickhouse_default" None None, Examples.empty_world) =
  (Return 0%nat,
   (ClickHouseHook.mkHook "clickhouse_default" None (Some 0%nat),
    add_client
      (ClickHouse (mkClickHouseClient "db.example.com" Examples.example_kwargs))
      Examples.empty_world)).
Proof.
  exact (proj1
           (proj1 (@get_conn_scenario_and_default_host
                     Examples.example_runtime Examples.example_driver)
              (ClickHouseHook.mkHook "clickhouse_default" None None)
              Examples.empty_world eq_refl eq_refl eq_refl eq_refl)).
Defined.

(** ** When the client is built, and how often *)

Section HandleLifetime.
Context `{RT : Runtime} {Driver : ClickHouseDriver} {SDK : PyGithub}.

(** C2, as amended.  Constructing a hook builds its client at once:
    [__init__] itself calls [get_conn], so a hook that was constructed
    holds the handle of a client object built during the construction, by
    one call of the client's constructor, and [get_conn] on it returns
    that handle and builds nothing.  A construction that raises leaves no
    client object behind. *)
Theorem hooks_connect_at_construction :
  (forall (conn_id : string) (db : option string) (w w' : World)
          (hook : ClickHouseHook.Hook),
     ClickHouseHook.__init__ conn_id db w = (Return hook, w') ->
     exists obj : ClickHouseClient,
       ClickHouseHook.client hook = Some (length (clients w)) /\
       clients w' = clients w ++ [ClickHouse obj] /\
       ClickHouseHook.get_conn (hook, w') = (Return (length (clients w)), (hook, w'))) /\
  (forall (conn_id : string) (w w' : World) (hook : GithubHook.Hook),
     GithubHook.__init__ conn_id w = (Return hook, w') ->
     exists obj : GithubClient,
       GithubHook.client hook = Some (length (clients w)) /\
       clients w' = clients w ++ [Github obj] /\
       GithubHook.get_conn (hook, w') = (Return (length (clients w)), (hook, w'))) /\
  (forall (conn_id : string) (db : option string) (w w' : World) (e : PyExc),
     ClickHouseHook.__init__ conn_id db w = (Raise e, w') -> clients w' = clients w) /\
  (forall (conn_id : string) (w w' : World) (e : PyExc),
     GithubHook.__init__ conn_id w = (Raise e, w') -> clients w' = clients w).
Proof.
  split; [| split; [| split]].
  - intros conn_id db w w' hook Hinit.
    destruct (clickhouse_init_returns _ _ _ _ _ Hinit)
      as (conn & kwargs & _ & _ & _ & -> & ->).
    eexists. split; [reflexivity |]. split; [reflexivity |].
    now apply clickhouse_get_conn_cached.
  - intros conn_id w w' hook Hinit.
    destruct (github_init_returns _ _ _ _ Hinit) as (conn & _ & _ & -> & ->).
    eexists. split; [reflexivity |]. split; [reflexivity |].
    now apply github_get_conn_cached.
  - intros conn_id db w w' e Hinit.
    now rewrite (clickhouse_init_raises _ _ _ _ _ Hinit).
  - intros conn_id w w' e Hinit.
    now rewrite (github_init_raises _ _ _ _ Hinit).
Qed.

(** C3.  Connecting is idempotent, for both hooks.  On a hook that holds
    a handle, [get_conn] returns that same handle and leaves the hook and
    the world as they are.  For a hook that was constructed, the hook
    holds one handle, any number of [get_conn] calls in a row return that
    handle each time and change nothing, and the client objects built
    since before the construction number exactly one.  The one client is
    built indeed: on a hook without a handle whose descriptor is found and
    whose client the constructor accepts, any non-empty sequence of
    [get_conn] calls builds exactly that client, once, and every call
    returns its handle; and the construction of a hook for such a
    descriptor returns, having built exactly that client, after which any
    number of [get_conn] calls return its handle and build nothing. *)
Theorem get_conn_idempotent :
  (forall (self : ClickHouseHook.Hook) (w : World) (c : Handle),
     ClickHouseHook.client self = Some c ->
     ClickHouseHook.get_conn (self, w) = (Return c, (self, w))) /\
  (forall (conn_id : string) (db : option string) (w w' : World)
          (hook : ClickHouseHook.Hook),
     ClickHouseHook.__init__ conn_id db w = (Return hook, w') ->
     exists c : Handle,
       ClickHouseHook.client hook = Some c /\
       length (clients w') = S (length (clients w)) /\
       forall n : nat,
         ClickHouseHook.get_conn_times n (hook, w') =
         (Return (replicate n c), (hook, w'))) /\
  (forall (self : GithubHook.Hook) (w : World) (c : Handle),
     GithubHook.client self = Some c ->
     GithubHook.get_conn (self, w) = (Return c, (self, w))) /\
  (forall (conn_id : string) (w w' : World) (hook : GithubHook.Hook),
     GithubHook.__init__ conn_id w = (Return hook, w') ->
     exists c : Handle,
       GithubHook.client hook = Some c /\
       length (clients w') = S (length (clients w)) /\
       forall n : nat,
         GithubHook.get_conn_times n (hook, w') =
         (Return (replicate n c), (hook, w'))) /\
  (forall (self : ClickHouseHook.Hook) (w : World) (conn : Connection)
          (kwargs : gmap string PyVal) (n : nat),
     ClickHouseHook.client self = None ->
     get_connection (ClickHouseHook.clickhouse_conn_id self) = Return conn ->
     ClickHouseHook.connection_kwargs self conn = Return kwargs ->
     Client_init_error (ClickHouseHook.host_or_localhost conn) kwargs = None ->
     ClickHouseHook.get_conn_times (S n) (self, w) =
       (Return (replicate (S n) (length (clients w))),
        (ClickHouseHook.set_client (Some (length (clients w))) self,
         add_client
           (ClickHouse
              (mkClickHouseClient (ClickHouseHook.host_or_localhost conn) kwargs))
           w))) /\
  (forall (conn_id : string) (db : option string) (w : World)
          (conn : Connection) (kwargs : gmap string PyVal),
     get_connection conn_id = Return conn ->
     ClickHouseHook.connection_kwargs
       (ClickHouseHook.mkHook conn_id db None) conn = Return kwargs ->
     Client_init_error (ClickHouseHook.host_or_localhost conn) kwargs = None ->
     let hook := ClickHouseHook.mkHook conn_id db (Some (length (clients w))) in
     let w' :=
       add_client
         (ClickHouse
            (mkClickHouseClient (ClickHouseHook.host_or_localhost conn) kwargs))
         w in
     ClickHouseHook.__init__ conn_id db w = (Return hook, w') /\
     forall n : nat,
       ClickHouseHook.get_conn_times n (hook, w') =
       (Return (replicate n (length (clients w))), (hook, w'))) /\
  (forall (self : GithubHook.Hook) (w : World) (conn : Connection) (n : nat),
     GithubHook.client self = None ->
     get_connection (GithubHook.github_conn_id self) = Return conn ->
     Github_init_error (password conn) = None ->
     GithubHook.get_conn_times (S n) (self, w) =
       (Return (replicate (S n) (length (clients w))),
        (GithubHook.set_client (Some (length (clients w)))
           (GithubHook.set_connection (Some conn) self),
         add_client (Github (mkGithubClient (password conn))) w))) /\
  (forall (conn_id : string) (w : World) (conn : Connection),
     get_connection conn_id = Return conn ->
     Github_init_error (password conn) = None ->
     let hook :=
       GithubHook.mkHook (Some conn) conn_id (Some (length (clients w))) in
     let w' := add_client (Github (mkGithubClient (password conn))) w in
     GithubHook.__init__ conn_id w = (Return hook, w') /\
     forall n : nat,
       GithubHook.get_conn_times n (hook, w') =
       (Return (replicate n (length (clients w))), (hook, w'))).
Proof.
  split; [exact clickhouse_get_conn_cached |].
  split.
  { intros conn_id db w w' hook Hinit.
    destruct (clickhouse_init_returns _ _ _ _ _ Hinit)
      as (conn & kwargs & _ & _ & _ & -> & ->).
    exists (length (clients w)). split; [reflexivity |]. split.
    - unfold add_client. simpl. rewrite length_app. simpl. lia.
    - intros n. now apply clickhouse_get_conn_times_cached. }
  split; [exact github_get_conn_cached |].
  split.
  { intros conn_id w w' hook Hinit.
    destruct (github_init_returns _ _ _ _ Hinit) as (conn & _ & _ & -> & ->).
    exists (length (clients w)). split; [reflexivity |]. split.
    - unfold add_client. simpl. rewrite length_app. simpl. lia.
    - intros n. now apply github_get_conn_times_cached. }
  split.
  { intros self w conn kwargs n Hc Hconn Hkw Hinit.
    change (ClickHouseHook.get_conn_times (S n))
      with (c <- ClickHouseHook.get_conn ;;
            cs <- ClickHouseHook.get_conn_times n ;; ret (c :: cs))%py.
    unfold bind at 1. rewrite clickhouse_get_conn_fresh by exact Hc.
    rewrite Hconn, Hkw, Hinit.
    unfold bind at 1.
    rewrite (clickhouse_get_conn_times_cached n _ _ (length (clients w)))
      by (now destruct self).
    reflexivity. }
  split.
  { intros conn_id db w conn kwargs Hconn Hkw Hinit hook w'. split.
    - unfold ClickHouseHook.__init__.
      rewrite clickhouse_get_conn_fresh by reflexivity. simpl.
      now rewrite Hconn, Hkw, Hinit.
    - intros n. now apply clickhouse_get_conn_times_cached. }
  split.
  { intros self w conn n Hc Hconn Hinit.
    change (GithubHook.get_conn_times (S n))
      with (c <- GithubHook.get_conn ;;
            cs <- GithubHook.get_conn_times n ;; ret (c :: cs))%py.
    unfold bind at 1. rewrite github_get_conn_fresh by exact Hc.
    rewrite Hconn, Hinit.
    unfold bind at 1.
    rewrite (github_get_conn_times_cached n _ _ (length (clients w)))
      by (now destruct self).
    reflexivity. }
  intros conn_id w conn Hconn Hinit hook w'. split.
  - unfold GithubHook.__init__.
    rewrite github_get_conn_fresh by reflexivity. simpl.
    now rewrite Hconn, Hinit.
  - intros n. now apply github_get_conn_times_cached.
Qed.

End HandleLifetime.

(** C2, refuted as stated.  Constructing the ClickHouse hook for
    [clickhouse_default] in the example store returns a hook that already
    holds a handle. *)
Lemma construction_is_not_lazy :
  ~ @lazily_initialized Examples.example_runtime Examples.example_driver
      "clickhouse_default" None Examples.empty_world.
Proof.
  intros Hlazy.
  destruct (Hlazy
              (ClickHouseHook.mkHook "clickhouse_default" None (Some 0%nat))
              (add_client
                 (ClickHouse
                    (mkClickHouseClient "db.example.com" Examples.example_kwargs))
                 Examples.empty_world)
              eq_refl) as [Hnone _].
  discriminate Hnone.
Qed.

(** The construction of the ClickHouse hook in the example store. *)
Lemma hooks_connect_at_construction_witness :
  exists obj : ClickHouseClient,
    ClickHouseHook.client
      (ClickHouseHook.mkHook "clickhouse_default" None (Some 0%nat)) =
    Some (length (clients Examples.empty_world)) /\
    clients
      (add_client
         (ClickHouse (mkClickHouseClient "db.example.com" Examples.example_kwargs))
         Examples.empty_world) =
    clients Examples.empty_world ++ [ClickHouse obj] /\
    @ClickHouseHook.get_conn Examples.example_runtime Examples.example_driver
      (ClickHouseHook.mkHook "clickhouse_default" None (Some 0%nat),
       add_client
         (ClickHouse (mkClickHouseClient "db.example.com" Examples.example_kwargs))
         Examples.empty_world) =
    (Return (length (clients Examples.empty_world)),
     (ClickHouseHook.mkHook "clickhouse_default" None (Some 0%nat),
      add_client
        (ClickHouse (mkClickHouseClient "db.example.com" Examples.example_kwargs))
        Examples.empty_world)).
Proof.
  exact (proj1 (@hooks_connect_at_construction
                  Examples.example_runtime Examples.example_driver
                  Examples.example_sdk)
           "clickhouse_default" None Examples.empty_world _ _ eq_refl).
Defined.

(** The two hooks constructed in the example store: each construction
    returns, having built one client object, and every [get_conn] after it
    returns the handle of that object and builds nothing. *)
Lemma get_conn_idempotent_witness :
  (@ClickHouseHook.__init__ Examples.example_runtime Examples.example_driver
     "clickhouse_default" None Examples.empty_world =
   (Return (ClickHouseHook.mkHook "clickhouse_default" None (Some 0%nat)),
    add_client
      (ClickHouse (mkClickHouseClient "db.example.com" Examples.example_kwargs))
      Examples.empty_world) /\
   forall n : nat,
     @ClickHouseHook.get_conn_times Examples.example_runtime Examples.example_driver
       n
       (ClickHouseHook.mkHook "clickhouse_default" None (Some 0%nat),
        add_client
          (ClickHouse (mkClickHouseClient "db.example.com" Examples.example_kwargs))
          Examples.empty_world) =
     (Return (replicate n 0%nat),
      (ClickHouseHook.mkHook "clickhouse_default" None (Some 0%nat),
       add_client
         (ClickHouse (mkClickHouseClient "db.example.com" Examples.example_kwargs))
         Examples.empty_world))) /\
  (@GithubHook.__init__ Examples.example_runtime Examples.example_sdk
     "github_default" Examples.empty_world =
   (Return
      (GithubHook.mkHook
         (Some (mkConnection None VNone None None (Some "token") ∅))
         "github_default" (Some 0%nat)),
    add_client (Github (mkGithubClient (Some "token"))) Examples.empty_world) /\
   forall n : nat,
     @GithubHook.get_conn_times Examples.example_runtime Examples.example_sdk n
       (GithubHook.mkHook
          (Some (mkConnection None VNone None None (Some "token") ∅))
          "github_default" (Some 0%nat),
        add_client (Github (mkGithubClient (Some "token"))) Examples.empty_world) =
     (Return (replicate n 0%nat),
      (GithubHook.mkHook
         (Some (mkConnection None VNone None None (Some "token") ∅))
         "github_default" (Some 0%nat),
       add_client (Github (mkGithubClient (Some "token"))) Examples.empty_world))).
Proof.
  split.
  - exact (proj1 (proj2 (proj2 (proj2 (proj2 (proj2
             (@get_conn_idempotent
                Examples.example_runtime Examples.example_driver
                Examples.example_sdk))))))
             "clickhouse_default" None Examples.empty_world
             Examples.example_descriptor Examples.example_kwargs
             eq_refl eq_refl eq_refl).
  - exact (proj2 (proj2 (proj2 (proj2 (proj2 (proj2 (proj2
             (@get_conn_idempotent
                Examples.example_runtime Examples.example_driver
                Examples.example_sdk)))))))
             "github_default" Examples.empty_world
             (mkConnection None VNone None None (Some "token") ∅)
             eq_refl eq_refl).
Defined.

(** ** Queries *)

Section Query.
Context `{Driver : ClickHouseDriver}.

Import ClickHouseHook.

(** With the default limit the preview never raises and leaves the world
    as it is. *)
Lemma log_params_default_returns (p : Parameters) (w : World) :
  exists s : string, _log_params p 10 w = (Return s, w).
Proof.
  destruct (isinstance_Generator p) eqn:Hgen.
  { destruct p; try discriminate. eexists. apply log_params_generator. }
  destruct (Z_le_gt_dec (Z.of_nat (entries p)) 10) as [Hle|Hgt].
  { eexists. now apply log_params_short. }
  unfold _log_params, bind, lift, ret.
  rewrite Hgen, (len_container p Hgen).
  assert ((Z.of_nat (entries p) <=? 10) = false) as -> by lia.
  assert (exists head,
            (if isinstance_dict p
             then match dict_items p with
                  | Return items =>
                      match islice items 10 with
                      | Return first => Return (PDict (dict first))
                      | Raise e => Raise e
                      end
                  | Raise e => Raise e
                  end
             else getslice p 10) = Return head /\
            isinstance_Generator head = false) as (head & Hhead & Hc).
  { destruct p as [items|l|l|g]; try discriminate; simpl;
      eexists; (split; [reflexivity | reflexivity]). }
  destruct (isinstance_dict p).
  - destruct (dict_items p) as [items|e]; [| discriminate].
    destruct (islice items 10) as [first|e]; [| discriminate].
    injection Hhead as ->.
    rewrite (str_container _ Hc). unfold str_index_last. rewrite str_last_snoc.
    eexists. reflexivity.
  - rewrite Hhead.
    rewrite (str_container _ Hc). unfold str_index_last. rewrite str_last_snoc.
    eexists. reflexivity.
Qed.

(** Logging a query appends one line to the log and does nothing else. *)
Lemma log_query_returns (sql : string) (params : option Parameters) (w : World) :
  exists line : string,
    _log_query sql params w =
    (Return tt, mkWorld (clients w) (logged w ++ [line]) (generators w) (remote w)).
Proof.
  unfold _log_query, bind, log_info, modify, ret.
  destruct params as [p|]; [| eexists; reflexivity].
  destruct (truthy_parameters p); [| eexists; reflexivity].
  destruct (log_params_default_returns p w) as (s & ->).
  eexists. reflexivity.
Qed.

(** C4.  On a hook whose handle is a ClickHouse client, [query] logs the
    query and calls the client's [execute].  If that call raises an error
    (an instance of [Exception]), [query] raises an [AirflowException]
    whose message is ["Failed to execute SQL Query, error: "] followed by
    the message of the error; if it returns, [query] returns its result
    unchanged. *)
Theorem query_wraps_errors (self : Hook) (w : World) (c : Handle)
    (obj : ClickHouseClient) (sql : string) (params : option Parameters)
    (kwargs : gmap string PyVal) :
  client self = Some c ->
  clients w !! c = Some (ClickHouse obj) ->
  (forall (error : PyExc) (w' : World),
     Client_execute obj sql params kwargs (_log_query sql params w).2
       = (Raise error, w') ->
     isinstance_Exception error = true ->
     query sql params kwargs (self, w) =
       (Raise (mkExc AirflowException
                 ("Failed to execute SQL Query, error: " +:+ exc_str error)),
        (self, w'))) /\
  (forall (result : PyObject) (w' : World),
     Client_execute obj sql params kwargs (_log_query sql params w).2
       = (Return result, w') ->
     query sql params kwargs (self, w) = (Return result, (self, w'))).
Proof.
  intros Hc Hobj.
  destruct (log_query_returns sql params w) as (line & Hlog).
  assert (forall r w',
            Client_execute obj sql params kwargs (_log_query sql params w).2 = (r, w') ->
            (in_world (_log_query sql params) ;;
             result <- client_execute sql params kwargs ;; ret result) (self, w)
            = (r, (self, w'))) as Hbody.
  { intros r w' Hexec. rewrite Hlog in Hexec. simpl in Hexec.
    unfold bind at 1. unfold in_world at 1. simpl. rewrite Hlog.
    unfold bind at 1. unfold client_execute, bind, gets, in_world. simpl.
    rewrite Hc. simpl. rewrite Hobj. simpl. rewrite Hexec. now destruct r. }
  split.
  - intros error w' Hexec Herr. unfold query, try_except.
    rewrite (Hbody _ _ Hexec). now rewrite Herr.
  - intros result w' Hexec. unfold query, try_except.
    now rewrite (Hbody _ _ Hexec).
Qed.

End Query.

(** A failing query on the hook of the example store: the driver's error
    comes back as an [AirflowException] with the formatted message. *)
Lemma query_wraps_errors_witness :
  @ClickHouseHook.query Examples.example_runtime Examples.example_driver
    "boom" None ∅
    (ClickHouseHook.mkHook "clickhouse_default" None (Some 0%nat),
     add_client
       (ClickHouse (mkClickHouseClient "db.example.com" Examples.example_kwargs))
       Examples.empty_world) =
  (Raise (mkExc AirflowException
            "Failed to execute SQL Query, error: Code: 62. Syntax error"),
   (ClickHouseHook.mkHook "clickhouse_default" None (Some 0%nat),
    @mkWorld Examples.example_runtime
      [ClickHouse (mkClickHouseClient "db.example.com" Examples.example_kwargs)]
      ["boom"] ∅ tt)).
Proof.
  exact (proj1 (@query_wraps_errors
                  Examples.example_runtime Examples.example_driver
                  (ClickHouseHook.mkHook "clickhouse_default" None (Some 0%nat))
                  (add_client
                     (ClickHouse
                        (mkClickHouseClient "db.example.com" Examples.example_kwargs))
                     Examples.empty_world)
                  0%nat
                  (mkClickHouseClient "db.example.com" Examples.example_kwargs)
                  "boom" None ∅ eq_refl eq_refl)
           (mkExc (OtherException "ServerException") "Code: 62. Syntax error")
           _ eq_refl eq_refl).
Defined.

(** ** The preview of the parameters in the log *)

Section Preview.
Context `{RT : Runtime}.

Import ClickHouseHook.

(** C7.  For a dict of 15 entries and the limit 10, the preview is the
    dict's first 10 entries followed by the text "... and 5 more
    parameters" (with the ellipsis character) inside the closing brace.
    For every dict, list or tuple with more entries than a limit that is
    not negative, the preview is the [str] of the container of its first
    [limit] entries with, before the closing bracket, the count of the
    entries left out; a container with at most [limit] entries is rendered
    by [str], in full.  The world is left as it is. *)
Theorem log_params_preview :
  (forall (items : list (PyVal * PyVal)) (w : World),
     distinct_keys items = true ->
     length items = 15%nat ->
     _log_params (PDict items) 10 w =
       (Return ("{" +:+ join ", " (map repr_item (take 10 items))
                +:+ " " +:+ ellipsis +:+ " and 5 more parameters}"), w)) /\
  (forall (p : Parameters) (limit : Z) (w : World),
     isinstance_Generator p = false ->
     well_formed p = true ->
     0 <= limit < Z.of_nat (entries p) ->
     _log_params p limit w =
       (Return (str_drop_last (str (first_entries (Z.to_nat limit) p))
                +:+ " " +:+ ellipsis +:+ " and "
                +:+ str_int (Z.of_nat (entries p) - limit)
                +:+ " more parameters" +:+ String (closing_paren p) ""), w)) /\
  (forall (p : Parameters) (limit : Z) (w : World),
     isinstance_Generator p = false ->
     Z.of_nat (entries p) <= limit ->
     _log_params p limit w = (Return (str p), w)).
Proof.
  split; [| split].
  - intros items w Hkeys Hlen.
    rewrite (log_params_long (PDict items) 10 w eq_refl Hkeys)
      by (simpl; rewrite Hlen; lia).
    simpl. rewrite Hlen. reflexivity.
  - intros p limit w Hc Hwf Hlimit.
    rewrite (log_params_long p limit w Hc Hwf Hlimit).
    rewrite (str_container (first_entries (Z.to_nat limit) p)) by (now destruct p).
    rewrite str_drop_last_snoc. unfold more_parameters.
    now rewrite !append_assoc.
  - intros p limit w Hc Hle. now apply log_params_short.
Qed.

(** C8.  For a generator, whatever the limit and whatever the world (so
    whatever items the generator still has to yield), [_log_params]
    returns the [str] of the generator object, uncut, and leaves the world
    as it is.  No item of the generator is taken: [next] on it after the
    call gives what it would have given before. *)
Theorem log_params_generator_in_full (g : Generator) (limit : Z) (w : World) :
  _log_params (PGenerator g) limit w = (Return (str (PGenerator g)), w) /\
  (_log_params (PGenerator g) limit ;; next_item g) w = next_item g w.
Proof.
  split.
  - apply log_params_generator.
  - unfold bind. now rewrite log_params_generator.
Qed.

End Preview.

(** The preview of the fifteen example entries. *)
Lemma log_params_preview_witness :
  @ClickHouseHook._log_params Examples.example_runtime
    (PDict Examples.fifteen_entries) 10 Examples.empty_world =
  (Return ("{1: 1, 2: 4, 3: 9, 4: 16, 5: 25, 6: 36, 7: 49, 8: 64, 9: 81, 10: 100 "
           +:+ ClickHouseHook.ellipsis +:+ " and 5 more parameters}"),
   Examples.empty_world).
Proof.
  exact (proj1 (@log_params_preview Examples.example_runtime)
           Examples.fifteen_entries Examples.empty_world eq_refl eq_refl).
Defined.

(** ** The Github operator *)

Section OperatorFacts.
Context `{SDK : PyGithub} `{PY : Interpreter}.

Import GithubOperator.

(** After the hook is constructed, its handle is the Github client just
    built. *)
Lemma getattr_after_init (conn_id name : string) (w w1 : World)
    (hook : GithubHook.Hook) :
  GithubHook.__init__ conn_id w = (Return hook, w1) ->
  exists obj : GithubClient,
    clients w1 !! length (clients w) = Some (Github obj) /\
    getattr (GithubHook.client hook) name w1 =
    match Github_attr name with
    | Some a => (Return (obj, a), w1)
    | None =>
        (Raise (mkExc AttributeError
                  ("'Github' object has no attribute '" +:+ name +:+ "'")), w1)
    end.
Proof.
  intros Hinit.
  destruct (github_init_returns _ _ _ _ Hinit) as (conn & _ & _ & -> & ->).
  exists (mkGithubClient (password conn)).
  assert (clients (add_client (Github (mkGithubClient (password conn))) w)
            !! length (clients w) = Some (Github (mkGithubClient (password conn))))
    as Hobj.
  { unfold add_client. simpl. rewrite lookup_app_r by reflexivity.
    now rewrite Nat.sub_diag. }
  split; [exact Hobj |].
  unfold getattr, bind, gets. simpl.
  rewrite lookup_app_r by reflexivity. rewrite Nat.sub_diag. simpl.
  destruct (Github_attr name); reflexivity.
Qed.

(** The class statement fails on the annotation [Any] of [execute] when
    annotations are evaluated as the [def] runs: no import binds that
    name. *)
Lemma class_statement_eager :
  annotations_deferred = false ->
  class_statement =
  Raise (mkExc (OtherException "NameError") "name 'Any' is not defined").
Proof. intros Heager. unfold class_statement. now rewrite Heager. Qed.

Lemma execute_eager (self : Operator) (context : Context) (w : World) :
  annotations_deferred = false ->
  execute self context w =
  (Raise (mkExc (OtherException "NameError") "name 'Any' is not defined"), w).
Proof.
  intros Heager. unfold execute, bind, lift.
  now rewrite (class_statement_eager Heager).
Qed.

Lemma execute_deferred (self : Operator) (context : Context) (w : World) :
  annotations_deferred = true ->
  execute self context w = try_except (attempt self context) handlers w.
Proof.
  intros Hdeferred. unfold execute, bind, lift, class_statement.
  now rewrite Hdeferred.
Qed.

(** The two ways the body of [execute] fails before any call on the
    client. *)
Lemma execute_attribute_missing (self : Operator) (context : Context)
    (w w1 : World) (hook : GithubHook.Hook) :
  annotations_deferred = true ->
  Github_attr (method_name self) = None ->
  GithubHook.__init__ (github_conn_id self) w = (Return hook, w1) ->
  execute self context w =
    (Raise (mkExc AirflowException
              ("Github operator error: 'Github' object has no attribute '"
               +:+ method_name self +:+ "'")), w1).
Proof.
  intros Hdeferred Hattr Hinit. rewrite execute_deferred by exact Hdeferred.
  destruct (getattr_after_init _ (method_name self) _ _ _ Hinit)
    as (obj & _ & Hget).
  rewrite Hattr in Hget.
  unfold try_except, attempt. unfold bind at 1. rewrite Hinit.
  unfold bind at 1. rewrite Hget. reflexivity.
Qed.

Lemma execute_hook_raises (self : Operator) (context : Context)
    (w w1 : World) (e : PyExc) :
  annotations_deferred = true ->
  GithubHook.__init__ (github_conn_id self) w = (Raise e, w1) ->
  isinstance_Exception e = true ->
  execute self context w =
    (Raise (mkExc AirflowException (operator_prefix e +:+ exc_str e)), w1).
Proof.
  intros Hdeferred Hinit He. rewrite execute_deferred by exact Hdeferred.
  unfold try_except, attempt. unfold bind at 1. rewrite Hinit.
  unfold handlers, operator_prefix. rewrite He.
  destruct (isinstance_GithubException e); reflexivity.
Qed.

(** The failed expansion of [None] as keyword arguments. *)
Lemma execute_expands_none (self : Operator) (context : Context)
    (w w1 : World) (hook : GithubHook.Hook) (obj : GithubClient) (a : Attribute) :
  annotations_deferred = true ->
  github_method_args self = None ->
  GithubHook.__init__ (github_conn_id self) w = (Return hook, w1) ->
  clients w1 !! length (clients w) = Some (Github obj) ->
  Github_attr (method_name self) = Some a ->
  execute self context w =
    (Raise (mkExc AirflowException
              ("Github operator error: " +:+ callee_str obj (method_name self)
               +:+ " argument after ** must be a mapping, not NoneType")), w1).
Proof.
  intros Hdeferred Hargs Hinit Hobj Hattr.
  rewrite execute_deferred by exact Hdeferred.
  destruct (getattr_after_init _ (method_name self) _ _ _ Hinit)
    as (obj' & Hobj' & Hget).
  rewrite Hobj in Hobj'. injection Hobj' as <-.
  rewrite Hattr in Hget.
  unfold try_except, attempt. unfold bind at 1. rewrite Hinit.
  unfold bind at 1. rewrite Hget.
  unfold bind at 1. unfold call. rewrite Hargs. reflexivity.
Qed.

(** C5.  The module cannot define the class where annotations are
    evaluated as a [def] runs: the signature of [execute] names [Any],
    which no import binds, so every attempt to reach [execute] ends in a
    [NameError] and nothing else happens.  Where annotations are deferred
    the body runs and behaves as the claim says: when the hook is
    constructed and the client has no attribute of the operator's method
    name, [execute] raises an [AirflowException] carrying the text of the
    attribute error, and when the construction of the hook raises an
    error, [execute] raises an [AirflowException] as well. *)
Theorem execute_unknown_method (self : Operator) (context : Context) (w : World) :
  Github_attr (method_name self) = None ->
  (annotations_deferred = false ->
   execute self context w =
     (Raise (mkExc (OtherException "NameError") "name 'Any' is not defined"), w)) /\
  (annotations_deferred = true ->
   (forall (hook : GithubHook.Hook) (w1 : World),
      GithubHook.__init__ (github_conn_id self) w = (Return hook, w1) ->
      execute self context w =
        (Raise (mkExc AirflowException
                  ("Github operator error: 'Github' object has no attribute '"
                   +:+ method_name self +:+ "'")), w1)) /\
   (forall (e : PyExc) (w1 : World),
      GithubHook.__init__ (github_conn_id self) w = (Raise e, w1) ->
      isinstance_Exception e = true ->
      exists msg : string,
        execute self context w = (Raise (mkExc AirflowException msg), w1))).
Proof.
  intros Hattr. split.
  - intros Heager. now apply execute_eager.
  - intros Hdeferred. split.
    + intros hook w1 Hinit.
      now apply (execute_attribute_missing self context w w1 hook).
    + intros e w1 Hinit He. eexists.
      now apply (execute_hook_raises self context w w1 e).
Qed.

(** C10.  Where annotations are evaluated as a [def] runs, every attempt
    to build an operator without [github_method_args] and reach its
    [execute] ends in the [NameError] of the class statement.  Where they
    are deferred, such an operator holds [None] there and [execute] never
    returns, whatever the method name: it raises, and what it raises is an
    [AirflowException] unless
    the construction of the hook was cut short by an exception outside
    [Exception]; when the hook is constructed and the name is an attribute
    of the client, whatever it is bound to, the failure is the expansion
    of [None] as keyword arguments, and the method was not called: the
    world is the one the construction left. *)
Theorem execute_without_method_args (github_method : string)
    (conn_id : option string)
    (processor : option (Context -> PyObject -> PyM World PyObject))
    (context : Context) (w : World) :
  (annotations_deferred = false ->
   execute (__init__ github_method conn_id None processor) context w =
     (Raise (mkExc (OtherException "NameError") "name 'Any' is not defined"), w)) /\
  (annotations_deferred = true ->
   github_method_args (__init__ github_method conn_id None processor) = None /\
   (exists e : PyExc,
      (execute (__init__ github_method conn_id None processor) context w).1
      = Raise e) /\
   ((forall (e : PyExc) (w1 : World),
       GithubHook.__init__ (default "github_default" conn_id) w = (Raise e, w1) ->
       isinstance_Exception e = true) ->
    exists msg : string,
      (execute (__init__ github_method conn_id None processor) context w).1 =
      Raise (mkExc AirflowException msg)) /\
   (forall (hook : GithubHook.Hook) (w1 : World) (obj : GithubClient)
           (a : Attribute),
      GithubHook.__init__ (default "github_default" conn_id) w = (Return hook, w1) ->
      clients w1 !! length (clients w) = Some (Github obj) ->
      Github_attr github_method = Some a ->
      execute (__init__ github_method conn_id None processor) context w =
        (Raise (mkExc AirflowException
                  ("Github operator error: " +:+ callee_str obj github_method
                   +:+ " argument after ** must be a mapping, not NoneType")),
         w1))).
Proof.
  split; [intros Heager; now apply execute_eager |].
  intros Hdeferred. split; [reflexivity |].
  set (self := __init__ github_method conn_id None processor).
  assert (forall (hook : GithubHook.Hook) (w1 : World),
     GithubHook.__init__ (default "github_default" conn_id) w = (Return hook, w1) ->
     exists msg : string,
       execute self context w = (Raise (mkExc AirflowException msg), w1)) as Hbuilt.
  { intros hook w1 Hinit.
    destruct (getattr_after_init _ github_method _ _ _ Hinit) as (obj & Hobj & _).
    destruct (Github_attr github_method) as [a|] eqn:Hattr.
    - eexists.
      exact (execute_expands_none self context w w1 hook obj a
               Hdeferred eq_refl Hinit Hobj Hattr).
    - eexists.
      exact (execute_attribute_missing self context w w1 hook
               Hdeferred Hattr Hinit). }
  split; [| split].
  - destruct (GithubHook.__init__ (default "github_default" conn_id) w)
      as [[hook|e] w1] eqn:Hinit.
    + destruct (Hbuilt hook w1 eq_refl) as (msg & ->). eexists. reflexivity.
    + rewrite execute_deferred by exact Hdeferred.
      unfold try_except, attempt. unfold bind at 1. simpl. rewrite Hinit.
      unfold handlers.
      destruct (isinstance_GithubException e); [eexists; reflexivity |].
      destruct (isinstance_Exception e); eexists; reflexivity.
  - intros Hsignal.
    destruct (GithubHook.__init__ (default "github_default" conn_id) w)
      as [[hook|e] w1] eqn:Hinit.
    + destruct (Hbuilt hook w1 eq_refl) as (msg & ->). eexists. reflexivity.
    + specialize (Hsignal e w1 eq_refl).
      rewrite (execute_hook_raises self context w w1 e Hdeferred Hinit Hsignal).
      eexists. reflexivity.
  - intros hook w1 obj a Hinit Hobj Hattr.
    exact (execute_expands_none self context w w1 hook obj a
             Hdeferred eq_refl Hinit Hobj Hattr).
Qed.

End OperatorFacts.

(** The operator asked for a method the example client does not have, on
    the interpreter that evaluates annotations as a [def] runs: the
    [NameError] of the class statement, and on the one that defers them:
    the [AirflowException]. *)
Lemma execute_unknown_method_witness :
  @GithubOperator.execute Examples.example_runtime Examples.example_sdk
    Examples.eager_interpreter
    (@GithubOperator.mkOperator Examples.example_runtime
       "github_default" "no_such_method" (Some ∅) None)
    tt Examples.empty_world =
  (Raise (mkExc (OtherException "NameError") "name 'Any' is not defined"),
   Examples.empty_world) /\
  @GithubOperator.execute Examples.example_runtime Examples.example_sdk
    Examples.deferring_interpreter
    (@GithubOperator.mkOperator Examples.example_runtime
       "github_default" "no_such_method" (Some ∅) None)
    tt Examples.empty_world =
  (Raise (mkExc AirflowException
            "Github operator error: 'Github' object has no attribute 'no_such_method'"),
   add_client (Github (mkGithubClient (Some "token"))) Examples.empty_world).
Proof.
  split.
  - exact (proj1 (@execute_unknown_method
                    Examples.example_runtime Examples.example_sdk
                    Examples.eager_interpreter
                    (@GithubOperator.mkOperator Examples.example_runtime
                       "github_default" "no_such_method" (Some ∅) None)
                    tt Examples.empty_world eq_refl)
             eq_refl).
  - exact (proj1 (proj2 (@execute_unknown_method
                           Examples.example_runtime Examples.example_sdk
                           Examples.deferring_interpreter
                           (@GithubOperator.mkOperator Examples.example_runtime
                              "github_default" "no_such_method" (Some ∅) None)
                           tt Examples.empty_world eq_refl)
                    eq_refl)
             (GithubHook.mkHook
                (Some (mkConnection None VNone None None (Some "token") ∅))
                "github_default" (Some 0%nat))
             (add_client (Github (mkGithubClient (Some "token")))
                Examples.empty_world)
             eq_refl).
Defined.

(** The operator built without arguments for [get_user], a method of the
    example client, on the two interpreters. *)
Lemma execute_without_method_args_witness :
  @GithubOperator.execute Examples.example_runtime Examples.example_sdk
    Examples.eager_interpreter
    (@GithubOperator.__init__ Examples.example_runtime "get_user" None None None)
    tt Examples.empty_world =
  (Raise (mkExc (OtherException "NameError") "name 'Any' is not defined"),
   Examples.empty_world) /\
  @GithubOperator.execute Examples.example_runtime Examples.example_sdk
    Examples.deferring_interpreter
    (@GithubOperator.__init__ Examples.example_runtime "get_user" None None None)
    tt Examples.empty_world =
  (Raise (mkExc AirflowException
            "Github operator error: github.MainClass.Github.get_user() argument after ** must be a mapping, not NoneType"),
   add_client (Github (mkGithubClient (Some "token"))) Examples.empty_world).
Proof.
  split.
  - exact (proj1 (@execute_without_method_args
                    Examples.example_runtime Examples.example_sdk
                    Examples.eager_interpreter
                    "get_user" None None tt Examples.empty_world)
             eq_refl).
  - exact (proj2 (proj2 (proj2 (proj2 (@execute_without_method_args
                           Examples.example_runtime Examples.example_sdk
                           Examples.deferring_interpreter
                           "get_user" None None tt Examples.empty_world)
                    eq_refl)))
             (GithubHook.mkHook
                (Some (mkConnection None VNone None None (Some "token") ∅))
                "github_default" (Some 0%nat))
             (add_client (Github (mkGithubClient (Some "token")))
                Examples.empty_world)
             (mkGithubClient (Some "token")) Method eq_refl eq_refl eq_refl).
Defined.

(** ** The removed HDFS sensors *)

Section RemovedSensors.
Context `{RT : Runtime}.

Import HdfsSensors.

(** C6.  Each of the three constructors raises a [RuntimeError] with the
    one fixed message, whatever the arguments, and does nothing else; the
    message names the [WebHdfsSensor] and the downgrade of the provider. *)
Theorem removed_sensors_always_raise (args : list PyVal)
    (kwargs : gmap string PyVal) (w : World) :
  HdfsSensor__init__ args kwargs w = (Raise (mkExc RuntimeError _EXCEPTION_MESSAGE), w) /\
  HdfsRegexSensor__init__ args kwargs w
    = (Raise (mkExc RuntimeError _EXCEPTION_MESSAGE), w) /\
  HdfsFolderSensor__init__ args kwargs w
    = (Raise (mkExc RuntimeError _EXCEPTION_MESSAGE), w) /\
  contains "use the WebHdfsSensor" _EXCEPTION_MESSAGE = true /\
  contains "downgrade the provider to below 4.*" _EXCEPTION_MESSAGE = true.
Proof.
  repeat split; vm_compute; reflexivity.
Qed.

End RemovedSensors.

(** ** Further properties of the hook and the operator *)

Section DatabaseChoice.
Context `{Driver : ClickHouseDriver}.

Import ClickHouseHook.

(** A database given to the hook's constructor wins over the descriptor's
    schema (and over a [database] key of the extras): the client is built
    with it. *)
Theorem database_argument_wins
    (self : Hook) (w : World) (conn : Connection) (d : string)
    (c : Handle) (self' : Hook) (w' : World) :
  client self = None ->
  get_connection (clickhouse_conn_id self) = Return conn ->
  database self = Some d ->
  d <> "" ->
  get_conn (self, w) = (Return c, (self', w')) ->
  exists kwargs : gmap string PyVal,
    clients w' !! c =
      Some (ClickHouse (mkClickHouseClient (host_or_localhost conn) kwargs)) /\
    kwargs !! "database" = Some (VStr d).
Proof.
  intros Hc Hconn Hdb Hd. rewrite clickhouse_get_conn_fresh by exact Hc.
  rewrite Hconn.
  destruct (connection_kwargs self conn) as [kwargs|e] eqn:Hkw; [| discriminate].
  destruct (Client_init_error _ kwargs); [discriminate |].
  intros [= <- <- <-]. exists kwargs. split.
  - unfold add_client. simpl. rewrite lookup_app_r by reflexivity.
    now rewrite Nat.sub_diag.
  - destruct (connection_kwargs_lookup self conn kwargs Hkw)
      as (_ & _ & _ & Hdatabase & _).
    rewrite Hdatabase, Hdb. simpl.
    apply String.eqb_neq in Hd. now rewrite Hd.
Qed.

End DatabaseChoice.

(** The hook built for [clickhouse_default] with the database
    [analytics]: the descriptor's schema [default] is not used. *)
Lemma database_argument_wins_witness :
  exists kwargs : gmap string PyVal,
    clients
      (add_client
         (ClickHouse
            (mkClickHouseClient "db.example.com"
               (<["database" := VStr "analytics"]> Examples.example_kwargs)))
         Examples.empty_world) !! 0%nat =
      Some (ClickHouse (mkClickHouseClient "db.example.com" kwargs)) /\
    kwargs !! "database" = Some (VStr "analytics").
Proof.
  refine (@database_argument_wins
            Examples.example_runtime Examples.example_driver
            (ClickHouseHook.mkHook "clickhouse_default" (Some "analytics") None)
            Examples.empty_world Examples.example_descriptor "analytics"
            0%nat
            (ClickHouseHook.mkHook "clickhouse_default" (Some "analytics")
               (Some 0%nat))
            (add_client
               (ClickHouse
                  (mkClickHouseClient "db.example.com"
                     (<["database" := VStr "analytics"]> Examples.example_kwargs)))
               Examples.empty_world)
            eq_refl eq_refl eq_refl _ _).
  - discriminate.
  - vm_compute. reflexivity.
Defined.

Section OperatorResults.
Context `{SDK : PyGithub} `{PY : Interpreter}.

Import GithubOperator.

(** The call that the [try] block makes once the hook is constructed, the
    method is found and the arguments are a mapping. *)
Lemma attempt_calls_method (self : Operator) (context : Context)
    (w w1 : World) (hook : GithubHook.Hook) (obj : GithubClient)
    (kw : gmap string PyVal) :
  GithubHook.__init__ (github_conn_id self) w = (Return hook, w1) ->
  clients w1 !! length (clients w) = Some (Github obj) ->
  Github_attr (method_name self) = Some Method ->
  github_method_args self = Some kw ->
  attempt self context w =
    (github_result <- Github_call obj (method_name self) kw ;;
     match result_processor self with
     | Some process => process context github_result
     | None => ret github_result
     end) w1.
Proof.
  intros Hinit Hobj Hattr Hargs.
  destruct (getattr_after_init _ (method_name self) _ _ _ Hinit)
    as (obj' & Hobj' & Hget).
  rewrite Hobj in Hobj'. injection Hobj' as <-.
  rewrite Hattr in Hget.
  unfold attempt. unfold bind at 1. rewrite Hinit.
  unfold bind at 1. rewrite Hget.
  unfold bind at 1. unfold call. rewrite Hargs. simpl.
  unfold bind. destruct (Github_call obj (method_name self) kw w1) as [[r|e] w2];
    reflexivity.
Qed.

(** Where the class is defined (annotations deferred): the result of the
    method is returned as it is when the operator has no result processor;
    with one, the processor is called with the context and the result, and
    what it returns is returned instead. *)
Theorem execute_returns_processed_result (self : Operator) (context : Context)
    (w w1 w2 : World) (hook : GithubHook.Hook) (obj : GithubClient)
    (kw : gmap string PyVal) (github_result : PyObject) :
  annotations_deferred = true ->
  GithubHook.__init__ (github_conn_id self) w = (Return hook, w1) ->
  clients w1 !! length (clients w) = Some (Github obj) ->
  Github_attr (method_name self) = Some Method ->
  github_method_args self = Some kw ->
  Github_call obj (method_name self) kw w1 = (Return github_result, w2) ->
  (result_processor self = None ->
   execute self context w = (Return github_result, w2)) /\
  (forall (process : Context -> PyObject -> PyM World PyObject)
          (processed : PyObject) (w3 : World),
     result_processor self = Some process ->
     process context github_result w2 = (Return processed, w3) ->
     execute self context w = (Return processed, w3)).
Proof.
  intros Hdeferred Hinit Hobj Hattr Hargs Hcall.
  rewrite execute_deferred by exact Hdeferred. unfold try_except.
  rewrite (attempt_calls_method self context w w1 hook obj kw Hinit Hobj Hattr Hargs).
  unfold bind. rewrite Hcall. split.
  - intros ->. reflexivity.
  - intros process processed w3 -> Hprocess. now rewrite Hprocess.
Qed.

(** Where the class is defined (annotations deferred): an error of the
    SDK raised by the method comes back as an [AirflowException] whose
    message is ["Failed to execute GithubOperator, error: "] followed by
    the message of the error; any other error of the call comes back as an
    [AirflowException] with the prefix ["Github operator error: "]. *)
Theorem execute_wraps_sdk_errors (self : Operator) (context : Context)
    (w w1 w2 : World) (hook : GithubHook.Hook) (obj : GithubClient)
    (kw : gmap string PyVal) (e : PyExc) :
  annotations_deferred = true ->
  GithubHook.__init__ (github_conn_id self) w = (Return hook, w1) ->
  clients w1 !! length (clients w) = Some (Github obj) ->
  Github_attr (method_name self) = Some Method ->
  github_method_args self = Some kw ->
  Github_call obj (method_name self) kw w1 = (Raise e, w2) ->
  isinstance_Exception e = true ->
  execute self context w =
    (Raise (mkExc AirflowException
              ((if isinstance_GithubException e
                then "Failed to execute GithubOperator, error: "
                else "Github operator error: ") +:+ exc_str e)), w2).
Proof.
  intros Hdeferred Hinit Hobj Hattr Hargs Hcall He.
  rewrite execute_deferred by exact Hdeferred. unfold try_except.
  rewrite (attempt_calls_method self context w w1 hook obj kw Hinit Hobj Hattr Hargs).
  unfold bind. rewrite Hcall. unfold handlers. rewrite He.
  destruct (isinstance_GithubException e); reflexivity.
Qed.

End OperatorResults.

(** [get_user] on the example client, without a result processor. *)
Lemma execute_returns_processed_result_witness :
  @GithubOperator.execute Examples.example_runtime Examples.example_sdk
    Examples.deferring_interpreter
    (@GithubOperator.mkOperator Examples.example_runtime
       "github_default" "get_user" (Some ∅) None)
    tt Examples.empty_world =
  (Return (VStr "octocat"),
   add_client (Github (mkGithubClient (Some "token"))) Examples.empty_world).
Proof.
  exact (proj1 (@execute_returns_processed_result
                  Examples.example_runtime Examples.example_sdk
                  Examples.deferring_interpreter
                  (@GithubOperator.mkOperator Examples.example_runtime
                     "github_default" "get_user" (Some ∅) None)
                  tt Examples.empty_world _ _ _ _ ∅ _
                  eq_refl eq_refl eq_refl eq_refl eq_refl eq_refl)
           eq_refl).
Defined.

(** [get_repo] on the example client: the SDK's error, wrapped. *)
Lemma execute_wraps_sdk_errors_witness :
  @GithubOperator.execute Examples.example_runtime Examples.example_sdk
    Examples.deferring_interpreter
    (@GithubOperator.mkOperator Examples.example_runtime
       "github_default" "get_repo" (Some ∅) None)
    tt Examples.empty_world =
  (Raise (mkExc AirflowException
            "Failed to execute GithubOperator, error: 404 Not Found"),
   add_client (Github (mkGithubClient (Some "token"))) Examples.empty_world).
Proof.
  exact (@execute_wraps_sdk_errors
           Examples.example_runtime Examples.example_sdk
           Examples.deferring_interpreter
           (@GithubOperator.mkOperator Examples.example_runtime
              "github_default" "get_repo" (Some ∅) None)
           tt Examples.empty_world _ _ _ _ ∅ _
           eq_refl eq_refl eq_refl eq_refl eq_refl eq_refl eq_refl).
Defined.

(** ** What the hook logs, forwards and raises *)

Section QueryEffects.
Context `{Driver : ClickHouseDriver}.

Import ClickHouseHook.

(** [_log_query] never raises: it appends one line to the log, the query
    followed, when the parameters are given and true, by [" with "] and
    their preview under the default limit; nothing else changes. *)
Theorem log_query_appends_one_line (sql : string) (params : option Parameters)
    (w : World) :
  exists suffix : string,
    _log_query sql params w =
      (Return tt,
       mkWorld (clients w) (logged w ++ [sql +:+ suffix]) (generators w) (remote w)) /\
    match params with
    | None => suffix = ""
    | Some p =>
        if truthy_parameters p
        then exists s : string,
               _log_params p 10 w = (Return s, w) /\ suffix = " with " +:+ s
        else suffix = ""
    end.
Proof.
  unfold _log_query, bind, log_info, modify, ret.
  destruct params as [p|]; [| exists ""; split; reflexivity].
  destruct (truthy_parameters p); [| exists ""; split; reflexivity].
  destruct (log_params_default_returns p w) as (s & Hs). rewrite Hs.
  exists (" with " +:+ s). split; [reflexivity |].
  exists s. split; reflexivity.
Qed.

(** The body of [query] on a hook whose handle is a ClickHouse client:
    the line is logged, then the driver's [execute] decides. *)
Lemma query_body_outcome (self : Hook) (w w' : World) (c : Handle)
    (obj : ClickHouseClient) (sql : string) (params : option Parameters)
    (kwargs : gmap string PyVal) (r : Outcome PyObject) :
  client self = Some c ->
  clients w !! c = Some (ClickHouse obj) ->
  Client_execute obj sql params kwargs (_log_query sql params w).2 = (r, w') ->
  (in_world (_log_query sql params) ;;
   result <- client_execute sql params kwargs ;; ret result) (self, w)
  = (r, (self, w')).
Proof.
  intros Hc Hobj Hexec.
  destruct (log_query_returns sql params w) as (line & Hlog).
  rewrite Hlog in Hexec. simpl in Hexec.
  unfold bind at 1. unfold in_world at 1. simpl. rewrite Hlog.
  unfold bind at 1. unfold client_execute, bind, gets, in_world. simpl.
  rewrite Hc. simpl. rewrite Hobj. simpl. rewrite Hexec. now destruct r.
Qed.

(** Whatever the state of the hook and whatever the driver does, an
    [Exception] that [query] raises is an [AirflowException] whose message
    is the fixed prefix followed by the message of the error that the body
    of the [try] (the log line, then the driver's [execute]) raised, in the
    state in which the body raised it.  An exception outside [Exception]
    raised by the driver's [execute] is not caught: [query] raises it as it
    is. *)
Theorem query_raises_only_airflow_exceptions (self : Hook) (w : World)
    (sql : string) (params : option Parameters) (kwargs : gmap string PyVal) :
  (forall (e : PyExc) (s' : Hook * World),
     query sql params kwargs (self, w) = (Raise e, s') ->
     isinstance_Exception e = true ->
     exists cause : PyExc,
       (in_world (_log_query sql params) ;;
        result <- client_execute sql params kwargs ;; ret result) (self, w)
         = (Raise cause, s') /\
       isinstance_Exception cause = true /\
       e = mkExc AirflowException
             ("Failed to execute SQL Query, error: " +:+ exc_str cause)) /\
  (forall (c : Handle) (obj : ClickHouseClient) (e : PyExc) (w' : World),
     client self = Some c ->
     clients w !! c = Some (ClickHouse obj) ->
     Client_execute obj sql params kwargs (_log_query sql params w).2
       = (Raise e, w') ->
     isinstance_Exception e = false ->
     query sql params kwargs (self, w) = (Raise e, (self, w'))).
Proof.
  split.
  - intros e s'. unfold query, try_except.
    destruct ((in_world (_log_query sql params) ;;
               result <- client_execute sql params kwargs ;; ret result) (self, w))
      as [[result|cause] s0]; [discriminate |].
    destruct (isinstance_Exception cause) eqn:Hcause.
    + intros [= <- <-] _. exists cause.
      split; [reflexivity |]. split; [exact Hcause | reflexivity].
    + intros [= <- _] He. congruence.
  - intros c obj e w' Hc Hobj Hexec He. unfold query, try_except.
    rewrite (query_body_outcome self w w' c obj sql params kwargs _ Hc Hobj Hexec).
    now rewrite He.
Qed.

(** A hook that was constructed always reaches the driver: [query] calls
    [execute] on the client built from the hook's descriptor, with the
    query, the parameters and the keyword arguments as given, in the world
    that holds the new log line; it returns the driver's result and wraps
    the driver's error. *)
Theorem constructed_hook_query_reaches_driver (conn_id : string)
    (db : option string) (w w1 : World) (hook : Hook)
    (sql : string) (params : option Parameters) (kwargs : gmap string PyVal) :
  __init__ conn_id db w = (Return hook, w1) ->
  exists (conn : Connection) (kw : gmap string PyVal),
    get_connection conn_id = Return conn /\
    connection_kwargs (mkHook conn_id db None) conn = Return kw /\
    (forall (result : PyObject) (w2 : World),
       Client_execute (mkClickHouseClient (host_or_localhost conn) kw)
         sql params kwargs (_log_query sql params w1).2 = (Return result, w2) ->
       query sql params kwargs (hook, w1) = (Return result, (hook, w2))) /\
    (forall (e : PyExc) (w2 : World),
       Client_execute (mkClickHouseClient (host_or_localhost conn) kw)
         sql params kwargs (_log_query sql params w1).2 = (Raise e, w2) ->
       isinstance_Exception e = true ->
       query sql params kwargs (hook, w1) =
         (Raise (mkExc AirflowException
                   ("Failed to execute SQL Query, error: " +:+ exc_str e)),
          (hook, w2))).
Proof.
  intros Hinit.
  destruct (clickhouse_init_returns _ _ _ _ _ Hinit)
    as (conn & kw & Hconn & Hkw & _ & -> & ->).
  exists conn, kw. split; [exact Hconn |]. split; [exact Hkw |].
  assert (clients
            (add_client
               (ClickHouse (mkClickHouseClient (host_or_localhost conn) kw)) w)
          !! length (clients w)
          = Some (ClickHouse (mkClickHouseClient (host_or_localhost conn) kw)))
    as Hobj.
  { unfold add_client. simpl. rewrite lookup_app_r by reflexivity.
    now rewrite Nat.sub_diag. }
  split.
  - intros result w2 Hexec. unfold query, try_except.
    pose proof (query_body_outcome
                  (mkHook conn_id db (Some (length (clients w)))) _ w2 _ _
                  sql params kwargs _ eq_refl Hobj Hexec) as Hbody.
    now rewrite Hbody.
  - intros e w2 Hexec He. unfold query, try_except.
    pose proof (query_body_outcome
                  (mkHook conn_id db (Some (length (clients w)))) _ w2 _ _
                  sql params kwargs _ eq_refl Hobj Hexec) as Hbody.
    rewrite Hbody. now rewrite He.
Qed.

End QueryEffects.

(** The interrupted query on the hook of the second store: the signal is
    not wrapped. *)
Lemma query_raises_only_airflow_exceptions_witness :
  @ClickHouseHook.query Examples.second_runtime Examples.second_driver
    "interrupt" None ∅
    (ClickHouseHook.mkHook "clickhouse_default" None (Some 0%nat),
     add_client
       (ClickHouse (mkClickHouseClient "db.example.com" Examples.example_kwargs))
       Examples.second_world) =
  (Raise (mkExc (SystemSignal "KeyboardInterrupt") ""),
   (ClickHouseHook.mkHook "clickhouse_default" None (Some 0%nat),
    @mkWorld Examples.second_runtime
      [ClickHouse (mkClickHouseClient "db.example.com" Examples.example_kwargs)]
      ["interrupt"] ∅ tt)).
Proof.
  exact (proj2 (@query_raises_only_airflow_exceptions
                  Examples.second_runtime Examples.second_driver
                  (ClickHouseHook.mkHook "clickhouse_default" None (Some 0%nat))
                  (add_client
                     (ClickHouse
                        (mkClickHouseClient "db.example.com" Examples.example_kwargs))
                     Examples.second_world)
                  "interrupt" None ∅)
           0%nat (mkClickHouseClient "db.example.com" Examples.example_kwargs)
           (mkExc (SystemSignal "KeyboardInterrupt") "") _
           eq_refl eq_refl eq_refl eq_refl).
Defined.

(** A query on the hook constructed in the example store. *)
Lemma constructed_hook_query_reaches_driver_witness :
  @ClickHouseHook.query Examples.example_runtime Examples.example_driver
    "SELECT 1" None ∅
    (ClickHouseHook.mkHook "clickhouse_default" None (Some 0%nat),
     add_client
       (ClickHouse (mkClickHouseClient "db.example.com" Examples.example_kwargs))
       Examples.empty_world) =
  (Return (VInt 1),
   (ClickHouseHook.mkHook "clickhouse_default" None (Some 0%nat),
    @mkWorld Examples.example_runtime
      [ClickHouse (mkClickHouseClient "db.example.com" Examples.example_kwargs)]
      ["SELECT 1"] ∅ tt)).
Proof.
  destruct (@constructed_hook_query_reaches_driver
              Examples.example_runtime Examples.example_driver
              "clickhouse_default" None Examples.empty_world
              (add_client
                 (ClickHouse
                    (mkClickHouseClient "db.example.com" Examples.example_kwargs))
                 Examples.empty_world)
              (ClickHouseHook.mkHook "clickhouse_default" None (Some 0%nat))
              "SELECT 1" None ∅ eq_refl)
    as (conn & kw & Hconn & Hkw & Hreturns & _).
  injection Hconn as <-. injection Hkw as <-.
  apply Hreturns. reflexivity.
Defined.

(** ** What [get_conn] keeps, and what its failures leave *)

Section ConnectionEdges.
Context `{Driver : ClickHouseDriver}.

Import ClickHouseHook.

(** No option of the extras is dropped on the way to the client, and the
    only keys added to them are [port], [user], [password] and
    [database]. *)
Theorem get_conn_keeps_extras
    (self : Hook) (w : World) (conn : Connection)
    (c : Handle) (self' : Hook) (w' : World) :
  client self = None ->
  get_connection (clickhouse_conn_id self) = Return conn ->
  get_conn (self, w) = (Return c, (self', w')) ->
  exists kwargs : gmap string PyVal,
    clients w' !! c =
      Some (ClickHouse (mkClickHouseClient (host_or_localhost conn) kwargs)) /\
    (forall k : string,
       is_Some (extra_dejson conn !! k) -> is_Some (kwargs !! k)) /\
    (forall k : string,
       is_Some (kwargs !! k) ->
       is_Some (extra_dejson conn !! k) \/
       k ∈ ["port"; "user"; "password"; "database"]).
Proof.
  intros Hc Hconn. rewrite clickhouse_get_conn_fresh by exact Hc. rewrite Hconn.
  destruct (connection_kwargs self conn) as [kwargs|e] eqn:Hkw; [| discriminate].
  destruct (Client_init_error _ kwargs); [discriminate |].
  intros [= <- <- <-]. exists kwargs. split.
  { unfold add_client. simpl. rewrite lookup_app_r by reflexivity.
    now rewrite Nat.sub_diag. }
  destruct (connection_kwargs_lookup self conn kwargs Hkw)
    as (Hport & Huser & Hpassword & Hdatabase & Hother).
  split.
  - intros k Hk.
    destruct (decide (k = "port")) as [-> | Hn1].
    { destruct (truthy (port conn)).
      - destruct Hport as (p & _ & ->). eauto.
      - now rewrite Hport. }
    destruct (decide (k = "user")) as [-> | Hn2].
    { rewrite Huser. destruct (login conn) as [l|]; simpl; [| exact Hk].
      destruct (negb (l =? "")%string); [eauto | exact Hk]. }
    destruct (decide (k = "password")) as [-> | Hn3].
    { rewrite Hpassword. destruct (password conn) as [l|]; simpl; [| exact Hk].
      destruct (negb (l =? "")%string); [eauto | exact Hk]. }
    destruct (decide (k = "database")) as [-> | Hn4].
    { rewrite Hdatabase.
      destruct (database self) as [d|]; simpl.
      - destruct (negb (d =? "")%string); [eauto |].
        destruct (schema conn) as [s|]; simpl; [| exact Hk].
        destruct (negb (s =? "")%string); [eauto | exact Hk].
      - destruct (schema conn) as [s|]; simpl; [| exact Hk].
        destruct (negb (s =? "")%string); [eauto | exact Hk]. }
    rewrite Hother; [exact Hk |].
    rewrite !elem_of_cons, elem_of_nil. tauto.
  - intros k Hk.
    destruct (decide (k ∈ ["port"; "user"; "password"; "database"]))
      as [Hin | Hnotin]; [now right |].
    left. now rewrite <- Hother.
Qed.

(** [get_conn] wraps nothing and cleans up nothing it need not: when it
    raises on a hook without a handle, the hook and the world are as
    before (no client object was built), and the error is the one raised
    by the lookup of the descriptor, by the conversion of the port or by
    the driver's constructor.  In particular a port that is a non-empty
    ASCII string and no integer literal makes it raise the [ValueError]
    of [int], whose message quotes the string. *)
Theorem get_conn_failure_builds_nothing (self : Hook) (w : World) :
  client self = None ->
  (forall (e : PyExc) (s' : Hook * World),
     get_conn (self, w) = (Raise e, s') ->
     s' = (self, w) /\
     (get_connection (clickhouse_conn_id self) = Raise e \/
      exists conn : Connection,
        get_connection (clickhouse_conn_id self) = Return conn /\
        ((truthy (port conn) = true /\ py_int (port conn) = Raise e) \/
         exists kwargs : gmap string PyVal,
           connection_kwargs self conn = Return kwargs /\
           Client_init_error (host_or_localhost conn) kwargs = Some e))) /\
  (forall (conn : Connection) (s : string),
     get_connection (clickhouse_conn_id self) = Return conn ->
     port conn = VStr s ->
     s <> "" ->
     isascii s = true ->
     parse_int s = NoLiteral ->
     get_conn (self, w) =
       (Raise (mkExc ValueError
                 ("invalid literal for int() with base 10: "
                  +:+ str_take 200 (repr_str s))),
        (self, w))).
Proof.
  intros Hc. split.
  - intros e s'. rewrite clickhouse_get_conn_fresh by exact Hc.
    destruct (get_connection (clickhouse_conn_id self)) as [conn|e0] eqn:Hconn.
    + destruct (connection_kwargs self conn) as [kwargs|e0] eqn:Hkw.
      * destruct (Client_init_error _ kwargs) as [e0|] eqn:Hinit; [| discriminate].
        intros [= <- <-]. split; [reflexivity |]. right. exists conn.
        split; [reflexivity |]. right. exists kwargs. split; [exact Hkw | exact Hinit].
      * intros [= <- <-]. split; [reflexivity |]. right. exists conn.
        split; [reflexivity |]. left.
        unfold connection_kwargs in Hkw.
        destruct (truthy (port conn)); [| discriminate].
        destruct (py_int (port conn)) as [p|e1]; [discriminate |].
        injection Hkw as <-. split; reflexivity.
    + intros [= <- <-]. split; [reflexivity |]. now left.
  - intros conn s Hconn Hport Hs _ Hint.
    rewrite clickhouse_get_conn_fresh by exact Hc. rewrite Hconn.
    unfold connection_kwargs. rewrite Hport. simpl.
    apply String.eqb_neq in Hs. rewrite Hs. simpl. rewrite Hint.
    reflexivity.
Qed.

(** Every construction builds a client of its own: two hooks, even for the
    same connection id, hold different handles; both client objects stay
    in the world, and the first hook still answers with its own handle
    after the second was constructed. *)
Theorem hooks_own_distinct_clients
    (conn_id1 conn_id2 : string) (db1 db2 : option string)
    (w w1 w2 : World) (hook1 hook2 : Hook) :
  __init__ conn_id1 db1 w = (Return hook1, w1) ->
  __init__ conn_id2 db2 w1 = (Return hook2, w2) ->
  exists (c1 c2 : Handle) (obj1 obj2 : ClickHouseClient),
    client hook1 = Some c1 /\
    client hook2 = Some c2 /\
    c1 <> c2 /\
    clients w2 !! c1 = Some (ClickHouse obj1) /\
    clients w2 !! c2 = Some (ClickHouse obj2) /\
    get_conn (hook1, w2) = (Return c1, (hook1, w2)).
Proof.
  intros Hinit1 Hinit2.
  destruct (clickhouse_init_returns _ _ _ _ _ Hinit1)
    as (conn1 & kw1 & _ & _ & _ & -> & ->).
  destruct (clickhouse_init_returns _ _ _ _ _ Hinit2)
    as (conn2 & kw2 & _ & _ & _ & -> & ->).
  exists (length (clients w)),
         (length (clients w ++ [ClickHouse (mkClickHouseClient (host_or_localhost conn1) kw1)])),
         (mkClickHouseClient (host_or_localhost conn1) kw1),
         (mkClickHouseClient (host_or_localhost conn2) kw2).
  split; [reflexivity |]. split; [reflexivity |]. split.
  { rewrite length_app. simpl. lia. }
  split.
  { unfold add_client. simpl. rewrite <- app_assoc.
    rewrite lookup_app_r by reflexivity. now rewrite Nat.sub_diag. }
  split.
  { unfold add_client. simpl. rewrite lookup_app_r by reflexivity.
    now rewrite Nat.sub_diag. }
  now apply clickhouse_get_conn_cached.
Qed.

(** With a negative limit every container counts as longer than the
    limit.  A dict then makes [_log_params] raise the [ValueError] of
    [islice]; a list or a tuple is cut from its end, and the count that is
    reported is larger than the number of its entries. *)
Theorem log_params_negative_limit (limit : Z) (w : World) :
  limit < 0 ->
  (forall items : list (PyVal * PyVal),
     exists msg : string,
       _log_params (PDict items) limit w = (Raise (mkExc ValueError msg), w)) /\
  (forall (p : Parameters) (l : list PyVal),
     p = PList l \/ p = PTuple l ->
     _log_params p limit w =
       (Return (str_drop_last
                  (str (first_entries (Z.to_nat (Z.of_nat (length l) + limit)) p))
                +:+ " " +:+ ellipsis +:+ " and "
                +:+ str_int (Z.of_nat (length l) - limit)
                +:+ " more parameters" +:+ String (closing_paren p) ""), w) /\
     Z.of_nat (length l) < Z.of_nat (length l) - limit).
Proof.
  intros Hneg. assert ((limit <? 0) = true) as Hlt by lia. split.
  - intros items. unfold _log_params, bind, lift, ret. simpl.
    assert ((Z.of_nat (length items) <=? limit) = false) as ->
        by (apply Z.leb_gt; lia).
    unfold islice. rewrite Hlt. eexists. reflexivity.
  - intros p l Hp. split; [| lia].
    assert (isinstance_Generator p = false) as Hc by (destruct Hp; subst; reflexivity).
    assert (isinstance_dict p = false) as Hd by (destruct Hp; subst; reflexivity).
    assert (len p = Return (Z.of_nat (length l))) as Hlen
        by (destruct Hp; subst; reflexivity).
    assert (getslice p limit
            = Return (first_entries (Z.to_nat (Z.of_nat (length l) + limit)) p))
      as Hslice.
    { destruct Hp; subst; simpl; unfold slice_to; now rewrite Hlt. }
    unfold _log_params, bind, lift, ret. rewrite Hc, Hlen, Hd, Hslice.
    assert ((Z.of_nat (length l) <=? limit) = false) as ->
        by (apply Z.leb_gt; lia).
    rewrite (str_container (first_entries _ p)) by (destruct Hp; subst; reflexivity).
    unfold str_index_last. rewrite str_last_snoc, str_drop_last_snoc.
    rewrite closing_paren_first_entries. rewrite ?append_assoc. reflexivity.
Qed.

End ConnectionEdges.

(** The extras of the descriptor with a port of its own: the key [port]
    is still there, under the descriptor's value. *)
Lemma get_conn_keeps_extras_witness :
  exists kwargs : gmap string PyVal,
    clients
      (add_client
         (ClickHouse
            (mkClickHouseClient "localhost"
               (<["port" := VInt 9000]> (<["port" := VInt 1234]> ∅))))
         Examples.empty_world) !! 0%nat =
      Some (ClickHouse (mkClickHouseClient "localhost" kwargs)) /\
    is_Some (kwargs !! "port").
Proof.
  destruct (@get_conn_keeps_extras
              Examples.example_runtime Examples.example_driver
              (ClickHouseHook.mkHook "extra_port" None None)
              Examples.empty_world Examples.extra_port_descriptor
              0%nat
              (ClickHouseHook.mkHook "extra_port" None (Some 0%nat))
              (add_client
                 (ClickHouse
                    (mkClickHouseClient "localhost"
                       (<["port" := VInt 9000]> (<["port" := VInt 1234]> ∅))))
                 Examples.empty_world)
              eq_refl eq_refl eq_refl)
    as (kwargs & Hclient & Hkept & _).
  exists kwargs. split; [exact Hclient |].
  apply Hkept. exists (VInt 1234). reflexivity.
Defined.

(** The descriptor whose port is [http]: no client, a [ValueError]. *)
Lemma get_conn_failure_builds_nothing_witness :
  @ClickHouseHook.get_conn Examples.second_runtime Examples.second_driver
    (ClickHouseHook.mkHook "bad_port" None None, Examples.second_world) =
  (Raise (mkExc ValueError "invalid literal for int() with base 10: 'http'"),
   (ClickHouseHook.mkHook "bad_port" None None, Examples.second_world)).
Proof.
  refine (proj2 (@get_conn_failure_builds_nothing
                   Examples.second_runtime Examples.second_driver
                   (ClickHouseHook.mkHook "bad_port" None None)
                   Examples.second_world eq_refl)
            Examples.bad_port_descriptor "http" eq_refl eq_refl _ eq_refl eq_refl).
  discriminate.
Defined.

(** Two hooks for [clickhouse_default] in the example store. *)
Lemma hooks_own_distinct_clients_witness :
  exists (c1 c2 : Handle) (obj1 obj2 : ClickHouseClient),
    ClickHouseHook.client
      (ClickHouseHook.mkHook "clickhouse_default" None (Some 0%nat)) = Some c1 /\
    ClickHouseHook.client
      (ClickHouseHook.mkHook "clickhouse_default" None (Some 1%nat)) = Some c2 /\
    c1 <> c2 /\
    clients
      (add_client
         (ClickHouse (mkClickHouseClient "db.example.com" Examples.example_kwargs))
         (add_client
            (ClickHouse (mkClickHouseClient "db.example.com" Examples.example_kwargs))
            Examples.empty_world)) !! c1 = Some (ClickHouse obj1) /\
    clients
      (add_client
         (ClickHouse (mkClickHouseClient "db.example.com" Examples.example_kwargs))
         (add_client
            (ClickHouse (mkClickHouseClient "db.example.com" Examples.example_kwargs))
            Examples.empty_world)) !! c2 = Some (ClickHouse obj2) /\
    @ClickHouseHook.get_conn Examples.example_runtime Examples.example_driver
      (ClickHouseHook.mkHook "clickhouse_default" None (Some 0%nat),
       add_client
         (ClickHouse (mkClickHouseClient "db.example.com" Examples.example_kwargs))
         (add_client
            (ClickHouse (mkClickHouseClient "db.example.com" Examples.example_kwargs))
            Examples.empty_world)) =
    (Return c1,
     (ClickHouseHook.mkHook "clickhouse_default" None (Some 0%nat),
      add_client
        (ClickHouse (mkClickHouseClient "db.example.com" Examples.example_kwargs))
        (add_client
           (ClickHouse (mkClickHouseClient "db.example.com" Examples.example_kwargs))
           Examples.empty_world))).
Proof.
  exact (@hooks_own_distinct_clients
           Examples.example_runtime Examples.example_driver
           "clickhouse_default" "clickhouse_default" None None
           Examples.empty_world _ _ _ _ eq_refl eq_refl).
Defined.

(** The list [1, 2, 3] under the limit [-1]: two entries shown, four
    reported as left out. *)
Lemma log_params_negative_limit_witness :
  @ClickHouseHook._log_params Examples.example_runtime
    (PList [VInt 1; VInt 2; VInt 3]) (-1) Examples.empty_world =
  (Return ("[1, 2 " +:+ ClickHouseHook.ellipsis +:+ " and 4 more parameters]"),
   Examples.empty_world).
Proof.
  assert (-1 < 0) as Hneg by reflexivity.
  exact (proj1 (proj2 (@log_params_negative_limit
                         Examples.example_runtime (-1) Examples.empty_world Hneg)
                  (PList [VInt 1; VInt 2; VInt 3]) [VInt 1; VInt 2; VInt 3]
                  (or_introl eq_refl))).
Defined.

(** ** The Github hook and its connection form *)

Section GithubDescriptor.
Context `{SDK : PyGithub}.

Import GithubHook.

(** The client of a Github hook depends on the descriptor through its
    password only: constructing hooks for two descriptors that agree on
    every field the connection form does not hide gives the same result
    (the same handle and client object, or the same error) and the same
    world. *)
Theorem github_hidden_fields_are_not_read
    (conn_id1 conn_id2 : string) (conn1 conn2 : Connection) (w : World) :
  get_connection conn_id1 = Return conn1 ->
  get_connection conn_id2 = Return conn2 ->
  (forall name : string,
     name ∉ hidden_fields get_ui_field_behaviour ->
     field name conn1 = field name conn2) ->
  password conn1 = password conn2 /\
  match __init__ conn_id1 w, __init__ conn_id2 w with
  | (Return hook1, w1), (Return hook2, w2) =>
      client hook1 = client hook2 /\ w1 = w2 /\
      clients w1 = clients w ++ [Github (mkGithubClient (password conn1))]
  | (Raise e1, w1), (Raise e2, w2) => e1 = e2 /\ w1 = w2 /\ w1 = w
  | _, _ => False
  end.
Proof.
  intros Hconn1 Hconn2 Hagree.
  assert (password conn1 = password conn2) as Hpassword.
  { assert ("password" ∉ hidden_fields get_ui_field_behaviour) as Hshown.
    { simpl. rewrite !elem_of_cons, elem_of_nil.
      intros [H | [H | [H | [H | [H | []]]]]]; discriminate H. }
    specialize (Hagree "password" Hshown). simpl in Hagree.
    now injection Hagree. }
  split; [exact Hpassword |].
  unfold __init__. rewrite !github_get_conn_fresh by reflexivity. simpl.
  rewrite Hconn1, Hconn2, <- Hpassword.
  destruct (Github_init_error (password conn1)); simpl; repeat split; reflexivity.
Qed.

End GithubDescriptor.

(** The two Github descriptors of the second store share their token and
    differ in host, port, schema, login and extras. *)
Lemma github_hidden_fields_are_not_read_witness :
  password Examples.github_a = password Examples.github_b /\
  (@GithubHook.__init__ Examples.second_runtime Examples.second_sdk
     "github_a" Examples.second_world).2 =
  (@GithubHook.__init__ Examples.second_runtime Examples.second_sdk
     "github_b" Examples.second_world).2.
Proof.
  assert (forall name : string,
            name ∉ GithubHook.hidden_fields GithubHook.get_ui_field_behaviour ->
            field name Examples.github_a = field name Examples.github_b) as Hagree.
  { intros name Hshown. unfold field.
    repeat match goal with
           | |- context [String.eqb name ?f] =>
               destruct (String.eqb_spec name f) as [-> | _];
               [first [reflexivity
                      | exfalso; apply Hshown; simpl;
                        rewrite !elem_of_cons; tauto] |]
           end.
    reflexivity. }
  destruct (@github_hidden_fields_are_not_read
              Examples.second_runtime Examples.second_sdk
              "github_a" "github_b" Examples.github_a Examples.github_b
              Examples.second_world eq_refl eq_refl Hagree) as [Hpassword Hsame].
  split; [exact Hpassword |].
  revert Hsame.
  destruct (@GithubHook.__init__ Examples.second_runtime Examples.second_sdk
              "github_a" Examples.second_world) as [[hook1|e1] w1];
    destruct (@GithubHook.__init__ Examples.second_runtime Examples.second_sdk
                "github_b" Examples.second_world) as [[hook2|e2] w2];
    simpl; tauto.
Defined.

(** ** What the operator raises and what it leaves behind *)

Section OperatorEdges.
Context `{SDK : PyGithub} `{PY : Interpreter}.

Import GithubOperator.

(** Where the class is defined (annotations deferred): whatever the store,
    the client and the result processor do, an [Exception] that [execute]
    raises is an [AirflowException] whose message is one of the two
    prefixes followed by the message of the error that the body of the
    [try] (the hook, the lookup of the method, the call, the result
    processor) raised, in the world in which the body raised it.  An
    exception outside [Exception] raised by the called method is not
    caught: [execute] raises it as it is. *)
Theorem execute_raises_only_airflow_exceptions (self : Operator)
    (context : Context) (w : World) :
  annotations_deferred = true ->
  (forall (e : PyExc) (w' : World),
     execute self context w = (Raise e, w') ->
     isinstance_Exception e = true ->
     exists cause : PyExc,
       attempt self context w = (Raise cause, w') /\
       isinstance_Exception cause = true /\
       e = mkExc AirflowException (operator_prefix cause +:+ exc_str cause)) /\
  (forall (hook : GithubHook.Hook) (w1 w2 : World) (kw : gmap string PyVal)
          (obj : GithubClient) (e : PyExc),
     GithubHook.__init__ (github_conn_id self) w = (Return hook, w1) ->
     clients w1 !! length (clients w) = Some (Github obj) ->
     Github_attr (method_name self) = Some Method ->
     github_method_args self = Some kw ->
     Github_call obj (method_name self) kw w1 = (Raise e, w2) ->
     isinstance_Exception e = false ->
     execute self context w = (Raise e, w2)).
Proof.
  intros Hdeferred. split.
  - intros e w'. rewrite execute_deferred by exact Hdeferred.
    unfold try_except.
    destruct (attempt self context w) as [[result|cause] w0]; [discriminate |].
    unfold handlers, operator_prefix.
    destruct (isinstance_GithubException cause) eqn:Hgithub.
    + intros [= <- <-] _. exists cause. split; [reflexivity |].
      split; [now destruct cause as [[]] | now rewrite Hgithub].
    + destruct (isinstance_Exception cause) eqn:Hcause.
      * intros [= <- <-] _. exists cause. split; [reflexivity |].
        split; [exact Hcause | now rewrite Hgithub].
      * intros [= <- _] He. congruence.
  - intros hook w1 w2 kw obj e Hinit Hobj Hattr Hargs Hcall He.
    rewrite execute_deferred by exact Hdeferred. unfold try_except.
    rewrite (attempt_calls_method self context w w1 hook obj kw
               Hinit Hobj Hattr Hargs).
    unfold bind. rewrite Hcall. unfold handlers.
    assert (isinstance_GithubException e = false) as ->
        by (destruct e as [[]]; first [discriminate He | reflexivity]).
    now rewrite He.
Qed.

(** Where the class is defined (annotations deferred): when the hook
    cannot be constructed, because the descriptor is not in the store or
    because the client's constructor raises, [execute] raises an
    [AirflowException] that carries the message of that error, and the
    world is as before: no client object was built and nothing was
    called. *)
Theorem execute_reports_failed_connection (self : Operator) (context : Context)
    (w : World) (e : PyExc) :
  annotations_deferred = true ->
  isinstance_Exception e = true ->
  get_connection (github_conn_id self) = Raise e \/
  (exists conn : Connection,
     get_connection (github_conn_id self) = Return conn /\
     Github_init_error (password conn) = Some e) ->
  execute self context w =
    (Raise (mkExc AirflowException (operator_prefix e +:+ exc_str e)), w).
Proof.
  intros Hdeferred He Hfail.
  apply execute_hook_raises; [exact Hdeferred | | exact He].
  unfold GithubHook.__init__.
  rewrite github_get_conn_fresh by reflexivity. simpl.
  destruct Hfail as [-> | (conn & -> & ->)]; reflexivity.
Qed.

(** Where the class is defined (annotations deferred): a name bound to
    something that is no method (an attribute holding a value) is looked
    up without error, and the call of that value fails: [execute] raises
    an [AirflowException] saying that the object is not callable, and
    nothing of the SDK was called. *)
Theorem execute_attribute_not_callable (self : Operator) (context : Context)
    (w w1 : World) (hook : GithubHook.Hook) (kw : gmap string PyVal)
    (type_name : string) :
  annotations_deferred = true ->
  GithubHook.__init__ (github_conn_id self) w = (Return hook, w1) ->
  Github_attr (method_name self) = Some (Data type_name) ->
  github_method_args self = Some kw ->
  execute self context w =
    (Raise (mkExc AirflowException
              ("Github operator error: '" +:+ type_name
               +:+ "' object is not callable")), w1).
Proof.
  intros Hdeferred Hinit Hattr Hargs.
  rewrite execute_deferred by exact Hdeferred.
  destruct (getattr_after_init _ (method_name self) _ _ _ Hinit)
    as (obj & _ & Hget).
  rewrite Hattr in Hget.
  unfold try_except, attempt. unfold bind at 1. rewrite Hinit.
  unfold bind at 1. rewrite Hget.
  unfold bind at 1. unfold call. rewrite Hargs. reflexivity.
Qed.

(** Where the class is defined (annotations deferred): the operator caches
    nothing between executions.  Every [execute] that gets as far as the
    hook builds a client object of its own, also when it then fails: two
    executions in a row for a method the client does not have leave two
    client objects behind. *)
Theorem execute_builds_a_client_each_time (self : Operator) (context : Context)
    (w : World) (conn : Connection) :
  annotations_deferred = true ->
  get_connection (github_conn_id self) = Return conn ->
  Github_init_error (password conn) = None ->
  Github_attr (method_name self) = None ->
  clients (execute self context w).2 =
    clients w ++ [Github (mkGithubClient (password conn))] /\
  clients (execute self context (execute self context w).2).2 =
    clients w ++ [Github (mkGithubClient (password conn));
                  Github (mkGithubClient (password conn))].
Proof.
  intros Hdeferred Hconn Hinit Hattr.
  assert (forall w0 : World,
            execute self context w0 =
            (Raise (mkExc AirflowException
                      ("Github operator error: 'Github' object has no attribute '"
                       +:+ method_name self +:+ "'")),
             add_client (Github (mkGithubClient (password conn))) w0)) as Hrun.
  { intros w0.
    apply (execute_attribute_missing self context w0 _
             (GithubHook.mkHook (Some conn) (github_conn_id self)
                (Some (length (clients w0)))) Hdeferred Hattr).
    unfold GithubHook.__init__.
    rewrite github_get_conn_fresh by reflexivity. simpl.
    now rewrite Hconn, Hinit. }
  rewrite !Hrun. simpl. split; [reflexivity |].
  now rewrite <- app_assoc.
Qed.

End OperatorEdges.

(** The interrupted method of the second client: the signal is not
    wrapped. *)
Lemma execute_raises_only_airflow_exceptions_witness :
  @GithubOperator.execute Examples.second_runtime Examples.second_sdk
    Examples.deferring_interpreter
    (@GithubOperator.mkOperator Examples.second_runtime
       "github_a" "interrupt" (Some ∅) None)
    tt Examples.second_world =
  (Raise (mkExc (SystemSignal "KeyboardInterrupt") ""),
   add_client (Github (mkGithubClient (Some "token"))) Examples.second_world).
Proof.
  exact (proj2 (@execute_raises_only_airflow_exceptions
                  Examples.second_runtime Examples.second_sdk
                  Examples.deferring_interpreter
                  (@GithubOperator.mkOperator Examples.second_runtime
                     "github_a" "interrupt" (Some ∅) None)
                  tt Examples.second_world eq_refl)
           _ _ _ ∅ _ _ eq_refl eq_refl eq_refl eq_refl eq_refl eq_refl).
Defined.

(** The operator for a connection id the example store does not know. *)
Lemma execute_reports_failed_connection_witness :
  @GithubOperator.execute Examples.example_runtime Examples.example_sdk
    Examples.deferring_interpreter
    (@GithubOperator.mkOperator Examples.example_runtime
       "github_missing" "get_user" (Some ∅) None)
    tt Examples.empty_world =
  (Raise (mkExc AirflowException
            "Github operator error: The conn_id `github_missing` isn't defined"),
   Examples.empty_world).
Proof.
  exact (@execute_reports_failed_connection
           Examples.example_runtime Examples.example_sdk
           Examples.deferring_interpreter
           (@GithubOperator.mkOperator Examples.example_runtime
              "github_missing" "get_user" (Some ∅) None)
           tt Examples.empty_world
           (mkExc AirflowNotFoundException
              "The conn_id `github_missing` isn't defined")
           eq_refl eq_refl (or_introl eq_refl)).
Defined.

(** The operator asked to call the integer attribute [per_page]. *)
Lemma execute_attribute_not_callable_witness :
  @GithubOperator.execute Examples.second_runtime Examples.second_sdk
    Examples.deferring_interpreter
    (@GithubOperator.mkOperator Examples.second_runtime
       "github_a" "per_page" (Some ∅) None)
    tt Examples.second_world =
  (Raise (mkExc AirflowException
            "Github operator error: 'int' object is not callable"),
   add_client (Github (mkGithubClient (Some "token"))) Examples.second_world).
Proof.
  exact (@execute_attribute_not_callable
           Examples.second_runtime Examples.second_sdk
           Examples.deferring_interpreter
           (@GithubOperator.mkOperator Examples.second_runtime
              "github_a" "per_page" (Some ∅) None)
           tt Examples.second_world _ _ ∅ "int" eq_refl eq_refl eq_refl eq_refl).
Defined.

(** Two executions for a method the example client does not have. *)
Lemma execute_builds_a_client_each_time_witness :
  clients
    (@GithubOperator.execute Examples.example_runtime Examples.example_sdk
       Examples.deferring_interpreter
       (@GithubOperator.mkOperator Examples.example_runtime
          "github_default" "no_such_method" (Some ∅) None)
       tt
       (@GithubOperator.execute Examples.example_runtime Examples.example_sdk
          Examples.deferring_interpreter
          (@GithubOperator.mkOperator Examples.example_runtime
             "github_default" "no_such_method" (Some ∅) None)
          tt Examples.empty_world).2).2 =
  [Github (mkGithubClient (Some "token")); Github (mkGithubClient (Some "token"))].
Proof.
  exact (proj2 (@execute_builds_a_client_each_time
                  Examples.example_runtime Examples.example_sdk
                  Examples.deferring_interpreter
                  (@GithubOperator.mkOperator Examples.example_runtime
                     "github_default" "no_such_method" (Some ∅) None)
                  tt Examples.empty_world
                  (mkConnection None VNone None None (Some "token") ∅)
                  eq_refl eq_refl eq_refl eq_refl)).
Defined.
